(** * Splash [Timer] (src/include/timer.h): a shallow embedding

    The [Timer] singleton keeps named start timestamps and durations, a
    one-slot duration hand-off between [operator>>] calls, an enable flag
    and the master clock.  Every member function becomes a function on an
    explicit [Timer] record.  What the C++ code reads from its environment
    is an argument here: the reading of [std::chrono::steady_clock] (in
    microseconds) and the identity of the calling thread.  What it does to
    its environment is a result: the [timespec] handed to [nanosleep]. *)

From stdpp Require Import gmap strings list fin_maps.
From Stdlib Require Import ZArith Lia.

Open Scope Z_scope.

(** ** Machine integers *)

Module Int.

Definition UINT64_MOD : Z := 2 ^ 64.
Definition INT64_MIN : Z := - 2 ^ 63.
Definition INT64_MAX : Z := 2 ^ 63 - 1.
Definition INT_MIN : Z := - 2 ^ 31.
Definition INT_MAX : Z := 2 ^ 31 - 1.

(** Conversion to [unsigned long long]: reduction modulo 2^64. *)
Definition u64 (z : Z) : Z := z mod UINT64_MOD.

(** The value an [int64_t] holds after an operation whose exact result
    is [z]: two's complement wrap-around. *)
Definition s64 (z : Z) : Z := (z + 2 ^ 63) mod UINT64_MOD - 2 ^ 63.

(** Conversion to [int]. *)
Definition s32 (z : Z) : Z := (z + 2 ^ 31) mod 2 ^ 32 - 2 ^ 31.

Definition in_u64 (z : Z) : Prop := 0 <= z < UINT64_MOD.
Definition in_s64 (z : Z) : Prop := INT64_MIN <= z <= INT64_MAX.
Definition in_int (z : Z) : Prop := INT_MIN <= z <= INT_MAX.

End Int.

Import Int.

(** ** Double precision, as far as [waitUntilDuration] uses it

    [(duration - elapsed) * 1e3] converts an [unsigned long long] to
    [double], multiplies by the double [1000.0] and stores the product in
    the [long] field [tv_nsec].  Both operands are integers, so every
    intermediate value is an integer rounded to 53 significant bits. *)

Module Double.

(** Round half to even of [n / 2^k]. *)
Definition round_shift (n k : Z) : Z :=
  let q := Z.shiftr n k in
  let r := n - Z.shiftl q k in
  let half := Z.shiftl 1 (k - 1) in
  if r <? half then q
  else if half <? r then q + 1
  else if Z.even q then q else q + 1.

(** The double nearest to the non-negative integer [n] (ties to even). *)
Definition round53 (n : Z) : Z :=
  if n <? 2 ^ 53 then n
  else let k := Z.log2 n - 52 in Z.shiftl (round_shift n k) k.

(** [double] to [long]: exact inside the range of [long].  Outside it the
    conversion is undefined in C++; the model takes what x86-64 yields
    there (the "integer indefinite" value [LONG_MIN]). *)
Definition to_long (d : Z) : Z :=
  if (INT64_MIN <=? d) && (d <=? INT64_MAX) then d else INT64_MIN.

(** [(long)(x * 1e3)] for an [unsigned long long] x. *)
Definition mul_1e3 (x : Z) : Z := to_long (round53 (round53 x * 1000)).

End Double.

(** ** The environment: threads, sleeping *)

(** [std::thread::id] of a running thread. *)
Definition thread_id := nat.

Record timespec := mkTimespec { tv_sec : Z; tv_nsec : Z }.

(** [nanosleep(2)], as POSIX defines it: a request whose [tv_nsec] is
    outside [0, 999999999] (or whose [tv_sec] is negative) fails with
    EINVAL and does not suspend the caller; any other request suspends
    it for the requested time.  The result is the suspension asked of the
    system, in nanoseconds. *)
Definition nanosleep (req : timespec) : Z :=
  if (0 <=? tv_sec req) && (0 <=? tv_nsec req) && (tv_nsec req <=? 999999999)
  then tv_sec req * 1000000000 + tv_nsec req
  else 0.

(** What a call did to the calling thread: nothing, or one [nanosleep]. *)
Definition slept (call : option timespec) : Z :=
  match call with
  | None => 0
  | Some req => nanosleep req
  end.

(** ** Values *)

(** Modelled from the spec: coretypes.h, which declares [Value] and
    [Values], is not among the sources.  The spec calls the master clock
    "an ordered sequence of ... numeric fields": a [Value] is the integer
    it holds. *)
Inductive Value := Integer (i : Z).

(** Modelled from the spec: [Value::as<int>()] (coretypes.h), the held
    number as an [int]. *)
Definition as_int (v : Value) : Z :=
  match v with Integer i => s32 i end.

(** Modelled from the spec: [Values] (coretypes.h), the ordered sequence
    of fields; [size()] is [length] and [operator[]] is the lookup. *)
Abbreviation Values := (list Value).

(** ** The registry *)

Record Timer := mkTimer {
  _timeMap : gmap string Z;
  _durationMap : gmap string Z;
  _currentDuration : Z;
  _isDurationSet : bool;
  (** [None] is the default-constructed id, which names no thread *)
  _durationThreadId : option thread_id;
  (** [true] while the [Spinlock] (coretypes.h) is held *)
  _timerMutex : bool;
  _enabled : bool;
  _isDebug : bool;
  _clock : Values
}.

(** The singleton as [Timer::get] first builds it. *)
Definition initial : Timer :=
  {| _timeMap := ∅; _durationMap := ∅; _currentDuration := 0;
     _isDurationSet := false; _durationThreadId := None;
     _timerMutex := false; _enabled := true; _isDebug := false;
     _clock := [] |}.

Definition set_timeMap (m : gmap string Z) (t : Timer) : Timer :=
  mkTimer m (_durationMap t) (_currentDuration t) (_isDurationSet t)
    (_durationThreadId t) (_timerMutex t) (_enabled t) (_isDebug t) (_clock t).

Definition set_durationMap (m : gmap string Z) (t : Timer) : Timer :=
  mkTimer (_timeMap t) m (_currentDuration t) (_isDurationSet t)
    (_durationThreadId t) (_timerMutex t) (_enabled t) (_isDebug t) (_clock t).

Definition set_currentDuration (d : Z) (t : Timer) : Timer :=
  mkTimer (_timeMap t) (_durationMap t) d (_isDurationSet t)
    (_durationThreadId t) (_timerMutex t) (_enabled t) (_isDebug t) (_clock t).

Definition set_isDurationSet (b : bool) (t : Timer) : Timer :=
  mkTimer (_timeMap t) (_durationMap t) (_currentDuration t) b
    (_durationThreadId t) (_timerMutex t) (_enabled t) (_isDebug t) (_clock t).

Definition set_durationThreadId (i : option thread_id) (t : Timer) : Timer :=
  mkTimer (_timeMap t) (_durationMap t) (_currentDuration t) (_isDurationSet t)
    i (_timerMutex t) (_enabled t) (_isDebug t) (_clock t).

Definition set_timerMutex (b : bool) (t : Timer) : Timer :=
  mkTimer (_timeMap t) (_durationMap t) (_currentDuration t) (_isDurationSet t)
    (_durationThreadId t) b (_enabled t) (_isDebug t) (_clock t).

Definition set_enabled (b : bool) (t : Timer) : Timer :=
  mkTimer (_timeMap t) (_durationMap t) (_currentDuration t) (_isDurationSet t)
    (_durationThreadId t) (_timerMutex t) b (_isDebug t) (_clock t).

Definition set_isDebug (b : bool) (t : Timer) : Timer :=
  mkTimer (_timeMap t) (_durationMap t) (_currentDuration t) (_isDurationSet t)
    (_durationThreadId t) (_timerMutex t) (_enabled t) b (_clock t).

Definition set_clock (c : Values) (t : Timer) : Timer :=
  mkTimer (_timeMap t) (_durationMap t) (_currentDuration t) (_isDurationSet t)
    (_durationThreadId t) (_timerMutex t) (_enabled t) (_isDebug t) c.

(** ** Measuring

    [now] is the reading of the steady clock, an [int64_t] count of
    microseconds.  The maps hold [std::atomic_ullong]: storing the reading
    converts it to [unsigned long long], and [currentTime - timeIt->second]
    is an [unsigned long long] subtraction. *)

Definition start (name : string) (now : Z) (t : Timer) : Timer :=
  if negb (_enabled t) then t
  else
    let currentTime := now in
    match _timeMap t !! name with
    | None => set_timeMap (<[name := u64 currentTime]> (_timeMap t)) t
    | Some _ => set_timeMap (<[name := u64 currentTime]> (_timeMap t)) t
    end.

Definition stop (name : string) (now : Z) (t : Timer) : Timer :=
  if negb (_enabled t) then t
  else
    match _timeMap t !! name with
    | Some startTime =>
        let currentTime := now in
        match _durationMap t !! name with
        | None =>
            set_durationMap (<[name := u64 (currentTime - startTime)]> (_durationMap t)) t
        | Some _ =>
            set_durationMap (<[name := u64 (currentTime - startTime)]> (_durationMap t)) t
        end
    | None => t
    end.

(** The outcome of a call that may sleep: the registry afterwards, the
    returned flag, and the request passed to [nanosleep] if the call got
    that far. *)
Record Paced := mkPaced {
  timer_after : Timer;
  returned : bool;
  nanosleep_call : option timespec
}.

Definition waitUntilDuration (name : string) (duration : Z) (now : Z) (t : Timer) : Paced :=
  if negb (_enabled t) then mkPaced t false None
  else
    match _timeMap t !! name with
    | None => mkPaced t false None
    | Some startTime =>
        let currentTime := now in
        let elapsed := u64 (currentTime - startTime) in
        let nap_overtime :=
          if elapsed <? duration
          then (mkTimespec 0 (Double.mul_1e3 (u64 (duration - elapsed))), false)
          else (mkTimespec 0 0, true) in
        let t' :=
          match _durationMap t !! name with
          | None => set_durationMap (<[name := Z.max duration elapsed]> (_durationMap t)) t
          | Some _ => set_durationMap (<[name := Z.max duration elapsed]> (_durationMap t)) t
          end in
        mkPaced t' (snd nap_overtime) (Some (fst nap_overtime))
    end.

Definition getDuration (name : string) (t : Timer) : Z :=
  match _durationMap t !! name with
  | None => 0
  | Some d => d
  end.

Definition getDurationMap (t : Timer) : gmap string Z := _durationMap t.

Definition setDuration (name : string) (value : Z) (t : Timer) : Timer :=
  match _durationMap t !! name with
  | None => set_durationMap (<[name := value]> (_durationMap t)) t
  | Some _ => set_durationMap (<[name := value]> (_durationMap t)) t
  end.

(** [sinceLastSeen] reads the clock in [stop] ([now1]) and again in
    [start] ([now2]); on the first call for a name only [start] runs. *)
Definition sinceLastSeen (name : string) (now1 now2 : Z) (t : Timer) : Timer * Z :=
  match _timeMap t !! name with
  | None => (start name now1 t, 0)
  | Some _ =>
      let t1 := stop name now1 t in
      let duration := getDuration name t1 in
      (start name now2 t1, duration)
  end.

(** ** The hand-off operators

    [operator<<(name)], [operator>>(duration)] and [operator>>(name)].
    [self] is [std::this_thread::get_id()].  [Spinlock::lock] (modelled
    from the spec, "blocking if another thread currently holds it") does
    not return while the lock is held: [operator_rshift_value] has no
    result then. *)

Definition operator_lshift (name : string) (now : Z) (t : Timer) : Timer :=
  set_currentDuration 0 (start name now t).

Definition operator_rshift_value (self : thread_id) (duration : Z) (t : Timer)
  : option Timer :=
  if _timerMutex t then None
  else
    Some (set_isDurationSet true
           (set_durationThreadId (Some self)
             (set_currentDuration duration
               (set_timerMutex true t)))).

Definition operator_rshift_name (self : thread_id) (name : string) (now : Z) (t : Timer)
  : Paced :=
  let taken :=
    if _isDurationSet t && bool_decide (_durationThreadId t = Some self)
    then (_currentDuration t,
          set_timerMutex false (set_currentDuration 0 (set_isDurationSet false t)))
    else (0, t) in
  let duration := fst taken in
  let t1 := snd taken in
  if 0 <? duration then waitUntilDuration name duration now t1
  else mkPaced (stop name now t1) false None.

Definition operator_index (name : string) (t : Timer) : Z := getDuration name t.

Definition isDebug (t : Timer) : bool := _isDebug t.
Definition setDebug (d : bool) (t : Timer) : Timer := set_isDebug d t.
Definition setStatus (enabled : bool) (t : Timer) : Timer := set_enabled enabled t.

Definition getTime (now : Z) : Z := now.

(** ** The master clock

    [_clockMutex] is taken and released inside each of the three
    functions, so it is free between calls and carries no state here. *)

Definition setMasterClock (clock : Values) (t : Timer) : Timer :=
  if (length clock =? 8)%nat then set_clock clock t else t.

(** [getMasterClock(Values& clock)]: the result and the caller's [clock]
    after the call. *)
Definition getMasterClock (t : Timer) (clock : Values) : bool * Values :=
  if (0 <? length (_clock t))%nat then (true, _clock t) else (false, clock).

(** The [std::chrono] duration types a caller passes as [T]. *)
Inductive TimeUnit :=
  nanoseconds | microseconds | milliseconds | seconds | minutes | hours.

(** [duration_cast<T>(useconds).count()]: the ratio between microseconds
    and [T] is either a multiplier or a divisor; division truncates. *)
Definition duration_cast (T : TimeUnit) (useconds : Z) : Z :=
  match T with
  | nanoseconds => s64 (useconds * 1000)
  | microseconds => useconds
  | milliseconds => useconds ÷ 1000
  | seconds => useconds ÷ 1000000
  | minutes => useconds ÷ 60000000
  | hours => useconds ÷ 3600000000
  end.

(** What the caller's [time] and [paused] hold after the call, and the
    returned flag. *)
Record Decoded := mkDecoded {
  is_set : bool;
  time_out : Z;
  paused_out : bool
}.

(** [frames], in [long long] arithmetic as the source writes it. *)
Definition frames_of (c2 c3 c4 c5 c6 : Z) : Z :=
  s64 (c6 + s64 (s64 (c5 + s64 (s64 (c4 + s64 (s64 (c3 + s64 (c2 * 24)) * 60)) * 60)) * 120)).

(** [getMasterClock<T>(time, paused)].  [clock[i]] on a [std::deque] is
    undefined for an index past the end: no result ([None]) then. *)
Definition getMasterClock_as (T : TimeUnit) (t : Timer) (time : Z) (paused : bool)
  : option Decoded :=
  if (length (_clock t) =? 0)%nat then Some (mkDecoded false time true)
  else
    let clock := _clock t in
    c6 ← clock !! 6%nat;
    c5 ← clock !! 5%nat;
    c4 ← clock !! 4%nat;
    c3 ← clock !! 3%nat;
    c2 ← clock !! 2%nat;
    let frames := frames_of (as_int c2) (as_int c3) (as_int c4) (as_int c5) (as_int c6) in
    let useconds := s64 (frames * 1000000) ÷ 120 in
    c7 ← clock !! 7%nat;
    Some (mkDecoded true (duration_cast T useconds) (negb (as_int c7 =? 0))).

(** ** Histories of calls

    A registry that exists in a run of the program is [initial] after a
    sequence of member-function calls.  Each call comes with what it reads
    from its environment: the calling thread and up to two clock
    readings. *)

Inductive Call :=
| Call_setDebug (d : bool)
| Call_start (name : string)
| Call_stop (name : string)
| Call_waitUntilDuration (name : string) (duration : Z)
| Call_getDuration (name : string)
| Call_setDuration (name : string) (value : Z)
| Call_sinceLastSeen (name : string)
| Call_lshift (name : string)
| Call_rshift_value (duration : Z)
| Call_rshift_name (name : string)
| Call_setStatus (enabled : bool)
| Call_setMasterClock (clock : Values)
| Call_getMasterClock (clock : Values)
| Call_getMasterClock_as (T : TimeUnit) (time : Z) (paused : bool)
| Call_index (name : string)
| Call_isDebug
| Call_getDurationMap.

Record Event := mkEvent {
  self : thread_id;
  now1 : Z;
  now2 : Z;
  call : Call
}.

(** The registry after one call, when the call returns. *)
Definition exec (e : Event) (t : Timer) : option Timer :=
  match call e with
  | Call_setDebug d => Some (setDebug d t)
  | Call_start name => Some (start name (now1 e) t)
  | Call_stop name => Some (stop name (now1 e) t)
  | Call_waitUntilDuration name duration =>
      Some (timer_after (waitUntilDuration name duration (now1 e) t))
  | Call_getDuration name => Some t
  | Call_setDuration name value => Some (setDuration name value t)
  | Call_sinceLastSeen name => Some (fst (sinceLastSeen name (now1 e) (now2 e) t))
  | Call_lshift name => Some (operator_lshift name (now1 e) t)
  | Call_rshift_value duration => operator_rshift_value (self e) duration t
  | Call_rshift_name name =>
      Some (timer_after (operator_rshift_name (self e) name (now1 e) t))
  | Call_setStatus enabled => Some (setStatus enabled t)
  | Call_setMasterClock clock => Some (setMasterClock clock t)
  | Call_getMasterClock clock => Some t
  | Call_getMasterClock_as T time paused =>
      match getMasterClock_as T t time paused with
      | Some _ => Some t
      | None => None
      end
  | Call_index name => Some t
  | Call_isDebug => Some t
  | Call_getDurationMap => Some t
  end.

Fixpoint run (es : list Event) (t : Timer) : option Timer :=
  match es with
  | [] => Some t
  | e :: es' =>
      match exec e t with
      | Some t' => run es' t'
      | None => None
      end
  end.

(** ** Notions the statements use *)

(** Field [i] of a clock as [as<int>()] reads it (0 past the end). *)
Definition field (clock : Values) (i : nat) : Z :=
  match clock !! i with
  | Some v => as_int v
  | None => 0
  end.

(** The absolute frame count over the integers. *)
Definition abs_frames (clock : Values) : Z :=
  field clock 6 + 120 * (field clock 5 + 60 * (field clock 4
    + 60 * (field clock 3 + 24 * field clock 2))).

(** The microseconds of the claim: [frames * 1_000_000 / 120] over the
    integers, the quotient truncated as C++ does. *)
Definition abs_useconds (clock : Values) : Z :=
  abs_frames clock * 1000000 ÷ 120.

Definition in_range_clock : Values :=
  [Integer 0; Integer 0; Integer 1; Integer 2; Integer 3; Integer 4; Integer 60; Integer 0].

Definition far_clock : Values :=
  [Integer 0; Integer 0; Integer 1000000; Integer 0; Integer 0; Integer 0; Integer 0; Integer 0].

(** A registry whose measurement "frame" was opened at clock reading 0. *)
Definition frame_started : Timer := start "frame" 0 initial.

(** The registry [t] with its hand-off slot (value, flag, owner, lock)
    replaced. *)
Definition with_slot (value : Z) (flag : bool) (owner : option thread_id) (locked : bool)
    (t : Timer) : Timer :=
  mkTimer (_timeMap t) (_durationMap t) value flag owner locked
    (_enabled t) (_isDebug t) (_clock t).

(** A registry in which thread 1 has published 5000 us that nobody has
    consumed yet. *)
Definition published : Timer := with_slot 5000 true (Some 1%nat) true initial.

Definition clock_wf (t : Timer) : Prop :=
  length (_clock t) = 0%nat \/ length (_clock t) = 8%nat.

(** A history that stores the spec's clock, then offers a 3-field one. *)
Definition clock_history : list Event :=
  [mkEvent 1%nat 0 0 (Call_setMasterClock in_range_clock);
   mkEvent 2%nat 5 5 (Call_start "frame");
   mkEvent 1%nat 9 9 (Call_setMasterClock [Integer 1; Integer 2; Integer 3])].

(** A registry that measured 40 us for "frame", re-armed it, and was then
    disabled. *)
Definition frame_disabled : Timer :=
  setStatus false (start "frame" 50 (stop "frame" 40 frame_started)).

(** The contract in the spec's words: without a start timestamp, [start]
    and 0; otherwise [stop] then [start], returning "the duration that
    had just elapsed", the time from the start timestamp to the reading
    [stop] takes. *)
Definition sinceLastSeen_contract (name : string) (now1 now2 : Z) (t : Timer)
  : Timer * Z :=
  match _timeMap t !! name with
  | None => (start name now1 t, 0)
  | Some startTime => (start name now2 (stop name now1 t), u64 (now1 - startTime))
  end.

(** [armed name t]: a measurement for [name] can complete in [t]. *)
Definition armed (name : string) (t : Timer) : bool :=
  _enabled t && match _timeMap t !! name with Some _ => true | None => false end.

(** Whether the call [e], made on [t], completes a measurement for [name]
    or sets its duration. *)
Definition records_duration (name : string) (e : Event) (t : Timer) : bool :=
  match call e with
  | Call_stop n => bool_decide (n = name) && armed n t
  | Call_waitUntilDuration n _ => bool_decide (n = name) && armed n t
  | Call_sinceLastSeen n => bool_decide (n = name) && armed n t
  | Call_rshift_name n => bool_decide (n = name) && armed n t
  | Call_setDuration n _ => bool_decide (n = name)
  | _ => false
  end.

(** No call of the history [es], run from [t], records a duration for
    [name]. *)
Fixpoint never_recorded (name : string) (es : list Event) (t : Timer) : Prop :=
  match es with
  | [] => True
  | e :: es' =>
      records_duration name e t = false
      /\ match exec e t with
         | Some t' => never_recorded name es' t'
         | None => True
         end
  end.

(** "frame" is measured; "audio" is started, and stopped only before it
    was ever started or while the registry is disabled. *)
Definition audio_history : list Event :=
  [mkEvent 1%nat 0 0 (Call_stop "audio");
   mkEvent 1%nat 1 1 (Call_start "frame");
   mkEvent 1%nat 2 2 (Call_start "audio");
   mkEvent 1%nat 30 30 (Call_stop "frame");
   mkEvent 1%nat 31 31 (Call_setStatus false);
   mkEvent 2%nat 40 40 (Call_stop "audio")].

(** ** Notions the further properties use *)

(** The name whose timestamp or duration a call may write. *)
Definition written_name (c : Call) : option string :=
  match c with
  | Call_start n => Some n
  | Call_stop n => Some n
  | Call_waitUntilDuration n _ => Some n
  | Call_setDuration n _ => Some n
  | Call_sinceLastSeen n => Some n
  | Call_lshift n => Some n
  | Call_rshift_name n => Some n
  | _ => None
  end.

(** The calls that measure behind the enable flag, and the queries. *)
Definition gated_call (c : Call) : bool :=
  match c with
  | Call_start _ | Call_stop _ | Call_waitUntilDuration _ _ | Call_sinceLastSeen _
  | Call_getDuration _ | Call_index _ | Call_isDebug | Call_getDurationMap => true
  | _ => false
  end.

(** The hand-off lock is held exactly while a value is pending, and a
    pending value has a publishing thread. *)
Definition slot_consistent (t : Timer) : Prop :=
  _timerMutex t = _isDurationSet t
  /\ (_isDurationSet t = true -> exists A, _durationThreadId t = Some A).

(** Whole seconds of a clock: everything but the frame field. *)
Definition abs_seconds (clock : Values) : Z :=
  field clock 5 + 60 * (field clock 4 + 60 * (field clock 3 + 24 * field clock 2)).


(** Measuring calls and queries, as made while the registry is off. *)
Definition gated_history : list Event :=
  [mkEvent 1%nat 100 100 (Call_start "audio");
   mkEvent 1%nat 200 200 (Call_stop "frame");
   mkEvent 2%nat 300 301 (Call_sinceLastSeen "frame");
   mkEvent 1%nat 400 400 (Call_waitUntilDuration "frame" 1000);
   mkEvent 1%nat 500 500 (Call_getDuration "frame")].

(** ** [RgbValue] (src/include/cgUtils.h)

    The constructors, [operator[]] and [set] move floats around without
    computing with them, so the float type stays a parameter, together
    with [0.f] and [Value::as<float>()] (coretypes.h). *)

Module Rgb.

Section RgbValue.

Variable float : Type.
Variable zero : float.
Variable as_float : Value -> float.

Record RgbValue := mkRgb { r : float; g : float; b : float }.

(** [RgbValue(){}]: the member initialisers [0.f]. *)
Definition RgbValue_default : RgbValue := mkRgb zero zero zero.

(** [RgbValue(const Values& v)]. *)
Definition RgbValue_of_Values (v : Values) : RgbValue :=
  if negb (length v =? 3)%nat then RgbValue_default
  else
    match v !! 0%nat, v !! 1%nat, v !! 2%nat with
    | Some v0, Some v1, Some v2 => mkRgb (as_float v0) (as_float v1) (as_float v2)
    | _, _, _ => RgbValue_default
    end.

(** [RgbValue(const std::vector<float>& v)]. *)
Definition RgbValue_of_vector (v : list float) : RgbValue :=
  if negb (length v =? 3)%nat then RgbValue_default
  else
    match v !! 0%nat, v !! 1%nat, v !! 2%nat with
    | Some v0, Some v1, Some v2 => mkRgb v0 v1 v2
    | _, _, _ => RgbValue_default
    end.

(** [RgbValue(float pr, float pg, float pb)]. *)
Definition RgbValue_of_floats (pr pg pb : float) : RgbValue := mkRgb pr pg pb.

(** The member a [float&] returned by [operator[]] refers to. *)
Inductive Member := member_r | member_g | member_b.

(** [operator[](unsigned int c)]: which member the reference is to. *)
Definition operator_index (c : N) : Member :=
  if ((c =? 0) || (2 <? c))%N then member_r
  else if (c =? 1)%N then member_g
  else member_b.

(** Reading and writing through such a reference. *)
Definition read (m : Member) (c : RgbValue) : float :=
  match m with
  | member_r => r c
  | member_g => g c
  | member_b => b c
  end.

Definition write (m : Member) (v : float) (c : RgbValue) : RgbValue :=
  match m with
  | member_r => mkRgb v (g c) (b c)
  | member_g => mkRgb (r c) v (b c)
  | member_b => mkRgb (r c) (g c) v
  end.

(** [set(int i, float v)]. *)
Definition set (i : Z) (v : float) (c : RgbValue) : RgbValue :=
  if i =? 0 then mkRgb v (g c) (b c)
  else if i =? 1 then mkRgb (r c) v (b c)
  else if i =? 2 then mkRgb (r c) (g c) v
  else c.

End RgbValue.

End Rgb.

(** ** Exact conversion, origin of timestamps, the pending value *)

(** A count of microseconds expressed in the unit [T] over the integers:
    times 1000 for nanoseconds, the quotient truncated toward zero for
    the coarser units. *)
Definition exact_cast (T : TimeUnit) (useconds : Z) : Z :=
  match T with
  | nanoseconds => useconds * 1000
  | microseconds => useconds
  | milliseconds => useconds ÷ 1000
  | seconds => useconds ÷ 1000000
  | minutes => useconds ÷ 60000000
  | hours => useconds ÷ 3600000000
  end.

(** The consume that follows [operator<<] runs [stop] on this registry:
    the one [operator<<] left, with the slot cleared and the lock
    released when the caller owns a pending value. *)
Definition consumed_after_lshift (self : thread_id) (name : string) (now : Z) (t : Timer)
  : Timer :=
  if _isDurationSet t && bool_decide (_durationThreadId t = Some self)
  then with_slot 0 false (Some self) false (start name now t)
  else operator_lshift name now t.

(** The calls that store a start timestamp for [name]. *)
Definition arming_call (name : string) (c : Call) : bool :=
  match c with
  | Call_start n => bool_decide (n = name)
  | Call_sinceLastSeen n => bool_decide (n = name)
  | Call_lshift n => bool_decide (n = name)
  | _ => false
  end.




(** * Proofs *)

(** ** Machine arithmetic *)

Lemma u64_id z : in_u64 z -> u64 z = z.
Proof. unfold in_u64, u64. intros H. apply Z.mod_small. exact H. Qed.

Lemma u64_range z : in_u64 (u64 z).
Proof. unfold in_u64, u64, UINT64_MOD. apply Z.mod_pos_bound. lia. Qed.

Lemma s64_id z : in_s64 z -> s64 z = z.
Proof.
  unfold in_s64, s64, INT64_MIN, INT64_MAX, UINT64_MOD. intros H.
  rewrite Z.mod_small; lia.
Qed.

Lemma s32_range z : in_int (s32 z).
Proof.
  unfold in_int, s32, INT_MIN, INT_MAX.
  pose proof (Z.mod_pos_bound (z + 2 ^ 31) (2 ^ 32)). lia.
Qed.

Lemma s32_id z : in_int z -> s32 z = z.
Proof.
  unfold in_int, s32, INT_MIN, INT_MAX. intros H.
  rewrite Z.mod_small; lia.
Qed.

Lemma mul_1e3_exact x :
  0 <= x -> x * 1000 < 2 ^ 53 -> Double.mul_1e3 x = x * 1000.
Proof.
  intros H0 H1.
  unfold Double.mul_1e3, Double.round53, Double.to_long, INT64_MIN, INT64_MAX.
  assert (Hx : (x <? 2 ^ 53) = true) by (apply Z.ltb_lt; lia).
  rewrite Hx.
  assert (Hp : (x * 1000 <? 2 ^ 53) = true) by (apply Z.ltb_lt; lia).
  rewrite Hp.
  assert (Hlo : (- 2 ^ 63 <=? x * 1000) = true) by (apply Z.leb_le; lia).
  assert (Hhi : (x * 1000 <=? 2 ^ 63 - 1) = true) by (apply Z.leb_le; lia).
  rewrite Hlo, Hhi. reflexivity.
Qed.

(** Rounding to [double] on the first integers it cannot hold: ties go
    to the even neighbour.  Products past the range of [long] leave
    [tv_nsec] outside what [nanosleep] accepts. *)
Example round53_ties :
  Double.round53 (2 ^ 53 + 1) = 2 ^ 53
  /\ Double.round53 (2 ^ 53 + 2) = 2 ^ 53 + 2
  /\ Double.round53 (2 ^ 53 + 3) = 2 ^ 53 + 4
  /\ Double.round53 (2 ^ 54 - 1) = 2 ^ 54.
Proof. repeat split. Qed.

Example mul_1e3_past_long :
  Double.mul_1e3 9007199254741 = 9007199254741000
  /\ Double.mul_1e3 9223372036854776 = INT64_MIN
  /\ Double.mul_1e3 (UINT64_MOD - 1) = INT64_MIN.
Proof. repeat split. Qed.

(** ** Basic facts about the record and the measuring functions *)

Lemma start_enabled name now t :
  _enabled t = true ->
  start name now t = set_timeMap (<[name := u64 now]> (_timeMap t)) t.
Proof.
  intros He. unfold start. rewrite He.
  destruct (_timeMap t !! name); reflexivity.
Qed.

Lemma start_disabled name now t : _enabled t = false -> start name now t = t.
Proof. intros He. unfold start. by rewrite He. Qed.

Lemma stop_disabled name now t : _enabled t = false -> stop name now t = t.
Proof. intros He. unfold stop. by rewrite He. Qed.

Lemma stop_unarmed name now t : _timeMap t !! name = None -> stop name now t = t.
Proof. intros Hn. unfold stop. rewrite Hn. by destruct (negb _). Qed.

Lemma stop_armed name now t startTime :
  _enabled t = true -> _timeMap t !! name = Some startTime ->
  stop name now t
  = set_durationMap (<[name := u64 (now - startTime)]> (_durationMap t)) t.
Proof.
  intros He Hs. unfold stop. rewrite He, Hs.
  destruct (_durationMap t !! name); reflexivity.
Qed.

Lemma setDuration_eq name value t :
  setDuration name value t = set_durationMap (<[name := value]> (_durationMap t)) t.
Proof. unfold setDuration. by destruct (_ !! _). Qed.

Lemma waitUntilDuration_disabled name duration now t :
  _enabled t = false -> waitUntilDuration name duration now t = mkPaced t false None.
Proof. intros He. unfold waitUntilDuration. by rewrite He. Qed.

Lemma waitUntilDuration_unarmed name duration now t :
  _timeMap t !! name = None ->
  waitUntilDuration name duration now t = mkPaced t false None.
Proof. intros Hn. unfold waitUntilDuration. rewrite Hn. by destruct (negb _). Qed.

Lemma waitUntilDuration_armed name duration now t startTime :
  _enabled t = true -> _timeMap t !! name = Some startTime ->
  let elapsed := u64 (now - startTime) in
  waitUntilDuration name duration now t
  = mkPaced (set_durationMap (<[name := Z.max duration elapsed]> (_durationMap t)) t)
      (negb (elapsed <? duration))
      (Some (mkTimespec 0
         (if elapsed <? duration then Double.mul_1e3 (u64 (duration - elapsed)) else 0))).
Proof.
  intros He Hs elapsed. unfold waitUntilDuration. rewrite He, Hs.
  fold elapsed.
  destruct (elapsed <? duration); destruct (_durationMap t !! name); reflexivity.
Qed.

(** The unsigned subtraction is the plain difference when the start
    timestamp is an earlier reading of the same monotonic clock. *)
Lemma elapsed_monotonic now startTime :
  0 <= startTime <= now -> now <= INT64_MAX -> u64 (now - startTime) = now - startTime.
Proof.
  intros H1 H2. apply u64_id. unfold in_u64, UINT64_MOD, INT64_MAX in *. lia.
Qed.

(** ** Decoding the master clock *)

Lemma as_int_range v : in_int (as_int v).
Proof. destruct v. apply s32_range. Qed.

Lemma field_range clock i : in_int (field clock i).
Proof.
  unfold field. destruct (clock !! i).
  - apply as_int_range.
  - unfold in_int, INT_MIN, INT_MAX. lia.
Qed.

(** The [long long] frame count never wraps: five [int] fields stay far
    below 2^63. *)
Lemma frames_of_exact c2 c3 c4 c5 c6 :
  in_int c2 -> in_int c3 -> in_int c4 -> in_int c5 -> in_int c6 ->
  frames_of c2 c3 c4 c5 c6 = c6 + 120 * (c5 + 60 * (c4 + 60 * (c3 + 24 * c2))).
Proof.
  unfold in_int, INT_MIN, INT_MAX. intros H2 H3 H4 H5 H6. unfold frames_of.
  assert (fits : forall z, - 2 ^ 63 <= z <= 2 ^ 63 - 1 -> s64 z = z)
    by (intros z Hz; apply s64_id; exact Hz).
  rewrite (fits (c2 * 24)) by lia.
  rewrite (fits (c3 + c2 * 24)) by lia.
  rewrite (fits ((c3 + c2 * 24) * 60)) by lia.
  rewrite (fits (c4 + (c3 + c2 * 24) * 60)) by lia.
  rewrite (fits ((c4 + (c3 + c2 * 24) * 60) * 60)) by lia.
  rewrite (fits (c5 + (c4 + (c3 + c2 * 24) * 60) * 60)) by lia.
  rewrite (fits ((c5 + (c4 + (c3 + c2 * 24) * 60) * 60) * 120)) by lia.
  rewrite (fits (c6 + (c5 + (c4 + (c3 + c2 * 24) * 60) * 60) * 120)) by lia.
  lia.
Qed.

Lemma lookup_length8 (clock : Values) (i : nat) :
  length clock = 8%nat -> (i < 8)%nat -> exists v, clock !! i = Some v.
Proof.
  intros Hl Hi. destruct (clock !! i) as [v|] eqn:E; [by exists v|].
  apply lookup_ge_None in E. lia.
Qed.

(** The decoding getter on a stored clock of 8 fields: the result in terms
    of the exact frame count, with the one wrap-around that can occur. *)
Lemma getMasterClock_as_stored T t time paused :
  length (_clock t) = 8%nat ->
  getMasterClock_as T t time paused
  = Some (mkDecoded true
      (duration_cast T (s64 (abs_frames (_clock t) * 1000000) ÷ 120))
      (negb (field (_clock t) 7 =? 0))).
Proof.
  intros Hl. unfold getMasterClock_as, abs_frames, field. rewrite Hl.
  destruct (lookup_length8 _ 2 Hl) as [v2 E2]; [lia|].
  destruct (lookup_length8 _ 3 Hl) as [v3 E3]; [lia|].
  destruct (lookup_length8 _ 4 Hl) as [v4 E4]; [lia|].
  destruct (lookup_length8 _ 5 Hl) as [v5 E5]; [lia|].
  destruct (lookup_length8 _ 6 Hl) as [v6 E6]; [lia|].
  destruct (lookup_length8 _ 7 Hl) as [v7 E7]; [lia|].
  rewrite E2, E3, E4, E5, E6, E7. cbn [Nat.eqb mbind option_bind].
  rewrite frames_of_exact by apply as_int_range.
  reflexivity.
Qed.

(** A truncated quotient by a positive constant stays in range. *)
Lemma quot_in_s64 x k : 0 < k -> in_s64 x -> in_s64 (x ÷ k).
Proof.
  unfold in_s64, INT64_MIN, INT64_MAX. intros Hk Hx.
  destruct (Z.le_gt_cases 0 x) as [Hpos|Hneg].
  - rewrite Z.quot_div_nonneg by lia.
    pose proof (Z.div_pos x k Hpos Hk).
    assert (x / k <= x) by (apply Z.div_le_upper_bound; nia).
    lia.
  - replace x with (- - x) by lia. rewrite Z.quot_opp_l by lia.
    rewrite Z.quot_div_nonneg by lia.
    assert (0 <= - x / k) by (apply Z.div_pos; lia).
    assert (- x / k <= - x) by (apply Z.div_le_upper_bound; nia).
    lia.
Qed.

(** Where frames * 1_000_000 fits, so do the microseconds, and so does
    their value in every unit coarser than the nanosecond: the range
    condition on the converted time binds for nanoseconds only. *)
Lemma exact_cast_fits T clock :
  T <> nanoseconds ->
  in_s64 (abs_frames clock * 1000000) ->
  in_s64 (exact_cast T (abs_useconds clock)).
Proof.
  intros HT Hr.
  assert (Hus : in_s64 (abs_useconds clock))
    by (unfold abs_useconds; apply quot_in_s64; [lia | exact Hr]).
  destruct T; cbn [exact_cast]; try exact Hus; try (apply quot_in_s64; [lia | exact Hus]).
  contradiction.
Qed.

(** [duration_cast] is the exact conversion when its result fits. *)
Lemma duration_cast_exact T useconds :
  in_s64 (exact_cast T useconds) -> duration_cast T useconds = exact_cast T useconds.
Proof.
  destruct T; cbn [duration_cast exact_cast]; intros H; try reflexivity.
  by apply s64_id.
Qed.

(** C1, as amended: for every stored 8-field master clock whose product
    frames * 1_000_000 fits a signed 64-bit integer, and whose time
    expressed in the caller's unit fits one too, the decoding getter
    returns true, hands back field 7 as the paused flag, and yields the
    time [frames * 1_000_000 / 120] microseconds (truncating division)
    converted exactly to the caller's unit, where frames is
    field6 + 120*(field5 + 60*(field4 + 60*(field3 + 24*field2))). *)
Theorem getMasterClock_as_decodes (T : TimeUnit) (t : Timer) (time : Z) (paused : bool) :
  length (_clock t) = 8%nat ->
  in_s64 (abs_frames (_clock t) * 1000000) ->
  in_s64 (exact_cast T (abs_useconds (_clock t))) ->
  getMasterClock_as T t time paused
  = Some (mkDecoded true (exact_cast T (abs_useconds (_clock t)))
            (negb (field (_clock t) 7 =? 0))).
Proof.
  intros Hl Hr Hc. rewrite getMasterClock_as_stored by exact Hl.
  rewrite s64_id by exact Hr. fold (abs_useconds (_clock t)).
  rewrite (duration_cast_exact _ _ Hc). reflexivity.
Qed.

(** The clock [0,0,1,2,3,4,60,0] of the spec decodes to
    (60 + 120*(4 + 60*(3 + 60*(2 + 24*1)))) * 1_000_000 / 120 microseconds,
    not paused; in nanoseconds, to a thousand times as much. *)
Lemma getMasterClock_as_decodes_witness :
  length (_clock (setMasterClock in_range_clock initial)) = 8%nat /\
  in_s64 (abs_frames (_clock (setMasterClock in_range_clock initial)) * 1000000) /\
  in_s64 (exact_cast microseconds
            (abs_useconds (_clock (setMasterClock in_range_clock initial)))) /\
  in_s64 (exact_cast nanoseconds
            (abs_useconds (_clock (setMasterClock in_range_clock initial)))) /\
  getMasterClock_as microseconds (setMasterClock in_range_clock initial) 0 true
  = Some (mkDecoded true
            ((60 + 120 * (4 + 60 * (3 + 60 * (2 + 24 * 1)))) * 1000000 / 120) false) /\
  getMasterClock_as nanoseconds (setMasterClock in_range_clock initial) 0 true
  = Some (mkDecoded true 93784500000000 false).
Proof.
  split; [reflexivity|]. split; [vm_compute; split; discriminate|].
  split; [vm_compute; split; discriminate|]. split; [vm_compute; split; discriminate|].
  split.
  - apply (getMasterClock_as_decodes microseconds
             (setMasterClock in_range_clock initial) 0 true).
    + reflexivity.
    + vm_compute; split; discriminate.
    + vm_compute; split; discriminate.
  - apply (getMasterClock_as_decodes nanoseconds
             (setMasterClock in_range_clock initial) 0 true).
    + reflexivity.
    + vm_compute; split; discriminate.
    + vm_compute; split; discriminate.
Defined.

(** C1, as stated, fails on a clock of 1_000_000 days: frames * 1_000_000
    exceeds 2^63 - 1, the 64-bit product wraps, and the decoded time is
    negative instead of 86_400_000_000_000_000 microseconds. *)
Lemma getMasterClock_as_wraps_counterexample :
  length (_clock (setMasterClock far_clock initial)) = 8%nat /\
  abs_useconds (_clock (setMasterClock far_clock initial)) = 86400000000000000 /\
  getMasterClock_as microseconds (setMasterClock far_clock initial) 0 true
  = Some (mkDecoded true (-67322867280912930) false) /\
  getMasterClock_as microseconds (setMasterClock far_clock initial) 0 true
  <> Some (mkDecoded true (abs_useconds (_clock (setMasterClock far_clock initial)))
             (negb (field (_clock (setMasterClock far_clock initial)) 7 =? 0))).
Proof.
  repeat split; try reflexivity. vm_compute. discriminate.
Qed.

(** ** Pacing *)

(** Where the remaining time is below one second the request is exact and
    [nanosleep] honours it. *)
Lemma nanosleep_short_gap gap :
  0 < gap < 1000000 ->
  nanosleep (mkTimespec 0 (Double.mul_1e3 gap)) = gap * 1000.
Proof.
  intros Hg. rewrite mul_1e3_exact by lia.
  unfold nanosleep. cbn [tv_sec tv_nsec].
  assert (H1 : (0 <=? gap * 1000) = true) by (apply Z.leb_le; lia).
  assert (H2 : (gap * 1000 <=? 999999999) = true) by (apply Z.leb_le; lia).
  rewrite H1, H2. reflexivity.
Qed.

(** A name without a start timestamp: no sleep, no change, false. *)
Lemma waitUntilDuration_never_armed name duration now t :
  _timeMap t !! name = None ->
  let r := waitUntilDuration name duration now t in
  returned r = false /\ nanosleep_call r = None /\ timer_after r = t.
Proof. intros Hn. rewrite waitUntilDuration_unarmed by exact Hn. done. Qed.

(** The branches of [waitUntilDuration] on an enabled registry, for a
    start timestamp that is an earlier reading of the clock: the recorded
    duration is [max target elapsed] in both; past the target the call
    returns true without sleeping; before it, it returns false and, when
    less than a second remains, sleeps exactly the remainder. *)
Lemma waitUntilDuration_branches name target now t startTime :
  _enabled t = true ->
  _timeMap t !! name = Some startTime ->
  0 <= startTime <= now -> now <= INT64_MAX -> in_u64 target ->
  let elapsed := now - startTime in
  let r := waitUntilDuration name target now t in
  getDuration name (timer_after r) = Z.max target elapsed /\
  target <= getDuration name (timer_after r) /\
  _timeMap (timer_after r) = _timeMap t /\
  (target <= elapsed -> returned r = true /\ slept (nanosleep_call r) = 0) /\
  (elapsed < target -> returned r = false /\
     (target - elapsed < 1000000 ->
      slept (nanosleep_call r) = (target - elapsed) * 1000)).
Proof.
  intros He Hs Hmono Hnow Htarget elapsed r. subst r.
  rewrite (waitUntilDuration_armed _ _ _ _ _ He Hs).
  rewrite (elapsed_monotonic _ _ Hmono Hnow). fold elapsed.
  cbn [timer_after returned nanosleep_call].
  assert (Hd : getDuration name
            (set_durationMap (<[name:=Z.max target elapsed]> (_durationMap t)) t)
          = Z.max target elapsed).
  { unfold getDuration. cbn [set_durationMap _durationMap].
    by rewrite lookup_insert_eq. }
  rewrite Hd. split; [reflexivity|]. split; [lia|]. split; [reflexivity|]. split.
  - intros Hov. apply Z.ltb_ge in Hov. rewrite Hov. split; reflexivity.
  - intros Hlt. pose proof Hlt as Hlt'. apply Z.ltb_lt in Hlt'. rewrite Hlt'.
    split; [reflexivity|]. intros Hgap.
    rewrite u64_id by (unfold in_u64 in *; lia).
    cbn [slept]. apply nanosleep_short_gap. lia.
Qed.

(** C2 at a target two seconds ahead: [waitUntilDuration] returns false
    and records the target, but the request it hands to [nanosleep] has
    [tv_sec = 0] and [tv_nsec = 2_000_000_000], which [nanosleep] rejects:
    the caller is not suspended at all. *)
Theorem waitUntilDuration_two_seconds :
  _enabled frame_started = true
  /\ _timeMap frame_started !! "frame" = Some 0
  /\ waitUntilDuration "frame" 2000000 0 frame_started
     = mkPaced (setDuration "frame" 2000000 frame_started) false
         (Some (mkTimespec 0 2000000000))
  /\ slept (nanosleep_call (waitUntilDuration "frame" 2000000 0 frame_started)) = 0
  /\ slept (nanosleep_call (waitUntilDuration "frame" 2000000 0 frame_started))
     <> (2000000 - 0) * 1000.
Proof. repeat split. discriminate. Qed.

(** ** The hand-off slot *)

Lemma with_slot_same t :
  with_slot (_currentDuration t) (_isDurationSet t) (_durationThreadId t) (_timerMutex t) t = t.
Proof. by destruct t. Qed.

Lemma operator_rshift_value_free self duration t :
  _timerMutex t = false ->
  operator_rshift_value self duration t = Some (with_slot duration true (Some self) true t).
Proof. intros Hm. unfold operator_rshift_value. by rewrite Hm. Qed.

Lemma operator_rshift_value_held self duration t :
  _timerMutex t = true -> operator_rshift_value self duration t = None.
Proof. intros Hm. unfold operator_rshift_value. by rewrite Hm. Qed.

Lemma operator_rshift_value_Some self duration t t' :
  operator_rshift_value self duration t = Some t' ->
  _timerMutex t = false /\ t' = with_slot duration true (Some self) true t.
Proof.
  unfold operator_rshift_value. destruct (_timerMutex t) eqn:Hm; [discriminate|].
  intros [= <-]. split; reflexivity.
Qed.

(** The measuring functions neither read nor write the slot. *)
Lemma start_with_slot name now v f o l t :
  start name now (with_slot v f o l t) = with_slot v f o l (start name now t).
Proof.
  unfold start. cbn [with_slot _enabled _timeMap].
  destruct (negb (_enabled t)); [reflexivity|].
  destruct (_timeMap t !! name); reflexivity.
Qed.

Lemma stop_with_slot name now v f o l t :
  stop name now (with_slot v f o l t) = with_slot v f o l (stop name now t).
Proof.
  unfold stop. cbn [with_slot _enabled _timeMap _durationMap].
  destruct (negb (_enabled t)); [reflexivity|].
  destruct (_timeMap t !! name); [|reflexivity].
  destruct (_durationMap t !! name); reflexivity.
Qed.

Lemma waitUntilDuration_with_slot name duration now v f o l t :
  waitUntilDuration name duration now (with_slot v f o l t)
  = mkPaced (with_slot v f o l (timer_after (waitUntilDuration name duration now t)))
      (returned (waitUntilDuration name duration now t))
      (nanosleep_call (waitUntilDuration name duration now t)).
Proof.
  unfold waitUntilDuration. cbn [with_slot _enabled _timeMap _durationMap].
  destruct (negb (_enabled t)); [reflexivity|].
  destruct (_timeMap t !! name); [|reflexivity].
  destruct (_durationMap t !! name); reflexivity.
Qed.

Lemma stop_slot name now t :
  _currentDuration (stop name now t) = _currentDuration t /\
  _isDurationSet (stop name now t) = _isDurationSet t /\
  _durationThreadId (stop name now t) = _durationThreadId t /\
  _timerMutex (stop name now t) = _timerMutex t.
Proof.
  unfold stop. destruct (negb (_enabled t)); [done|].
  destruct (_timeMap t !! name); [|done].
  destruct (_durationMap t !! name); done.
Qed.

(** [operator>>(name)] when the slot is set and owned by the caller. *)
Lemma operator_rshift_name_owner self name now t :
  _isDurationSet t = true -> _durationThreadId t = Some self ->
  operator_rshift_name self name now t
  = if 0 <? _currentDuration t
    then waitUntilDuration name (_currentDuration t) now
           (with_slot 0 false (Some self) false t)
    else mkPaced (stop name now (with_slot 0 false (Some self) false t)) false None.
Proof.
  intros Hf Ho. unfold operator_rshift_name. rewrite Hf, Ho.
  rewrite bool_decide_eq_true_2 by reflexivity. cbn [andb fst snd].
  replace (set_timerMutex false (set_currentDuration 0 (set_isDurationSet false t)))
    with (with_slot 0 false (Some self) false t); [reflexivity|].
  destruct t. cbn in *. by subst.
Qed.

(** [operator>>(name)] when the slot is unset or owned by another thread. *)
Lemma operator_rshift_name_stranger self name now t :
  _isDurationSet t = false \/ _durationThreadId t <> Some self ->
  operator_rshift_name self name now t = mkPaced (stop name now t) false None.
Proof.
  intros H. unfold operator_rshift_name.
  destruct H as [Hf | Ho].
  - rewrite Hf. reflexivity.
  - rewrite bool_decide_eq_false_2 by exact Ho. rewrite andb_false_r. reflexivity.
Qed.

(** C3: after thread [A] published the positive value [d], a consume on
    [A] is a direct [waitUntilDuration name d] call (same returned flag,
    same [nanosleep] request, same registry) with the slot cleared; a
    consume on another thread [B] is a plain [stop name] that returns
    false and leaves the flag, the value, the owner and the lock as the
    publish set them. *)
Theorem handoff_same_thread_only (A B : thread_id) (name : string) (d now : Z)
    (t t' : Timer) :
  operator_rshift_value A d t = Some t' ->
  0 < d ->
  B <> A ->
  (operator_rshift_name A name now t'
   = mkPaced
       (with_slot 0 false (Some A) false (timer_after (waitUntilDuration name d now t')))
       (returned (waitUntilDuration name d now t'))
       (nanosleep_call (waitUntilDuration name d now t'))
   /\ _isDurationSet (timer_after (operator_rshift_name A name now t')) = false)
  /\
  (operator_rshift_name B name now t' = mkPaced (stop name now t') false None
   /\ _isDurationSet (timer_after (operator_rshift_name B name now t')) = true
   /\ _currentDuration (timer_after (operator_rshift_name B name now t')) = d
   /\ _durationThreadId (timer_after (operator_rshift_name B name now t')) = Some A
   /\ _timerMutex (timer_after (operator_rshift_name B name now t')) = true).
Proof.
  intros Hpub Hd Hne.
  apply operator_rshift_value_Some in Hpub as [_ ->].
  assert (Hpos : (0 <? d) = true) by (apply Z.ltb_lt; exact Hd).
  split.
  - rewrite operator_rshift_name_owner by reflexivity.
    change (_currentDuration (with_slot d true (Some A) true t)) with d.
    rewrite Hpos.
    rewrite (waitUntilDuration_with_slot name d now 0 false (Some A) false).
    split; reflexivity.
  - rewrite operator_rshift_name_stranger.
    + cbn [timer_after].
      destruct (stop_slot name now (with_slot d true (Some A) true t))
        as (-> & -> & -> & ->).
      repeat split.
    + right. cbn [with_slot _durationThreadId]. congruence.
Qed.

Lemma handoff_same_thread_only_witness :
  operator_rshift_value 1%nat 5000 frame_started
  = Some (with_slot 5000 true (Some 1%nat) true frame_started)
  /\ 0 < 5000 /\ 2%nat <> 1%nat
  /\ returned (operator_rshift_name 1%nat "frame" 7000
       (with_slot 5000 true (Some 1%nat) true frame_started)) = true
  /\ operator_rshift_name 2%nat "frame" 7000
       (with_slot 5000 true (Some 1%nat) true frame_started)
     = mkPaced (stop "frame" 7000 (with_slot 5000 true (Some 1%nat) true frame_started))
         false None.
Proof.
  split; [reflexivity|]. split; [lia|]. split; [lia|].
  destruct (handoff_same_thread_only 1%nat 2%nat "frame" 5000 7000 frame_started
              (with_slot 5000 true (Some 1%nat) true frame_started)
              eq_refl ltac:(lia) ltac:(lia)) as [[HA _] [HB _]].
  split; [|exact HB]. rewrite HA. reflexivity.
Defined.

(** C4, as amended: [operator<<(name)] is [start name] followed by
    resetting the published value to 0; the pending flag, the publishing
    thread and the lock stay as they were.  The reset is what disarms a
    published value: whichever thread consumes next, and for whichever
    name, the consume is [stop] for that name, run on the registry that
    [operator<<] left (with the slot cleared and the lock released
    when the caller owns a pending value); it returns false and does not
    call [nanosleep]. *)
Theorem operator_lshift_resets_value (name name' : string) (now now' : Z)
    (self : thread_id) (t : Timer) :
  operator_lshift name now t
  = with_slot 0 (_isDurationSet t) (_durationThreadId t) (_timerMutex t)
      (start name now t)
  /\ _timeMap (operator_lshift name now t) = _timeMap (start name now t)
  /\ _durationMap (operator_lshift name now t) = _durationMap (start name now t)
  /\ _currentDuration (operator_lshift name now t) = 0
  /\ _isDurationSet (operator_lshift name now t) = _isDurationSet t
  /\ _durationThreadId (operator_lshift name now t) = _durationThreadId t
  /\ _timerMutex (operator_lshift name now t) = _timerMutex t
  /\ operator_rshift_name self name' now' (operator_lshift name now t)
     = mkPaced (stop name' now' (consumed_after_lshift self name now t)) false None
  /\ returned (operator_rshift_name self name' now' (operator_lshift name now t)) = false
  /\ nanosleep_call (operator_rshift_name self name' now' (operator_lshift name now t)) = None.
Proof.
  assert (E : operator_lshift name now t
              = with_slot 0 (_isDurationSet t) (_durationThreadId t) (_timerMutex t)
                  (start name now t)).
  { rewrite <- (with_slot_same t) at 1. unfold operator_lshift.
    rewrite start_with_slot. reflexivity. }
  assert (Hcons : operator_rshift_name self name' now' (operator_lshift name now t)
                  = mkPaced (stop name' now' (consumed_after_lshift self name now t))
                      false None).
  { unfold consumed_after_lshift. rewrite E.
    destruct (_isDurationSet t) eqn:Hf;
      [destruct (bool_decide_reflect (_durationThreadId t = Some self)) as [Ho|Ho]|].
    - rewrite operator_rshift_name_owner
        by (cbn [with_slot _isDurationSet _durationThreadId];
            first [reflexivity | assumption]).
      reflexivity.
    - rewrite operator_rshift_name_stranger
        by (right; cbn [with_slot _durationThreadId]; exact Ho).
      reflexivity.
    - rewrite operator_rshift_name_stranger
        by (left; cbn [with_slot _isDurationSet]; reflexivity).
      reflexivity. }
  split; [exact E|]. rewrite Hcons. rewrite E.
  repeat (split; [reflexivity|]). reflexivity.
Qed.

(** C4, as stated, fails: after a publish the pending flag is still set
    when [operator<<] has run (only the value is back to 0). *)
Lemma operator_lshift_keeps_flag_counterexample :
  operator_rshift_value 1%nat 5000 initial = Some published
  /\ _isDurationSet published = true
  /\ _isDurationSet (operator_lshift "frame" 0 published) = true
  /\ _currentDuration (operator_lshift "frame" 0 published) = 0.
Proof. repeat split. Qed.

(** ** The master clock is empty or has 8 fields *)

Lemma setMasterClock_rejects clock t :
  length clock <> 8%nat -> setMasterClock clock t = t.
Proof.
  intros Hl. unfold setMasterClock.
  destruct (Nat.eqb_spec (length clock) 8); [contradiction | reflexivity].
Qed.

Lemma setMasterClock_accepts clock t :
  length clock = 8%nat -> setMasterClock clock t = set_clock clock t.
Proof. intros Hl. unfold setMasterClock. by rewrite Hl. Qed.

Lemma start_clock name now t : _clock (start name now t) = _clock t.
Proof.
  unfold start. destruct (negb _); [done|]. by destruct (_ !! _).
Qed.

Lemma stop_clock name now t : _clock (stop name now t) = _clock t.
Proof.
  unfold stop. destruct (negb _); [done|].
  destruct (_timeMap t !! name); [|done]. by destruct (_durationMap t !! name).
Qed.

Lemma waitUntilDuration_clock name duration now t :
  _clock (timer_after (waitUntilDuration name duration now t)) = _clock t.
Proof.
  unfold waitUntilDuration. destruct (negb _); [done|].
  destruct (_timeMap t !! name); [|done]. by destruct (_durationMap t !! name).
Qed.

Lemma setDuration_clock name value t : _clock (setDuration name value t) = _clock t.
Proof. rewrite setDuration_eq. reflexivity. Qed.

Lemma sinceLastSeen_clock name n1 n2 t :
  _clock (fst (sinceLastSeen name n1 n2 t)) = _clock t.
Proof.
  unfold sinceLastSeen. destruct (_timeMap t !! name); cbn [fst].
  - by rewrite start_clock, stop_clock.
  - by rewrite start_clock.
Qed.

Lemma operator_rshift_name_clock self name now t :
  _clock (timer_after (operator_rshift_name self name now t)) = _clock t.
Proof.
  unfold operator_rshift_name.
  destruct (_isDurationSet t && bool_decide _); cbn [fst snd];
    destruct (0 <? _); cbn [timer_after];
    by rewrite ?waitUntilDuration_clock, ?stop_clock.
Qed.

Lemma operator_lshift_clock name now t : _clock (operator_lshift name now t) = _clock t.
Proof. unfold operator_lshift. cbn [set_currentDuration _clock]. apply start_clock. Qed.

Create Rewrite HintDb timer_clock.

#[local] Hint Rewrite start_clock stop_clock waitUntilDuration_clock setDuration_clock
  sinceLastSeen_clock operator_lshift_clock operator_rshift_name_clock : timer_clock.

(** What a returning call tells about the registry it returns. *)
Ltac exec_inv H :=
  lazymatch type of H with
  | Some _ = Some _ => injection H as <-
  | operator_rshift_value _ _ _ = Some _ =>
      apply operator_rshift_value_Some in H as [_ ->]
  | match getMasterClock_as ?T ?t ?time ?paused with _ => _ end = Some _ =>
      destruct (getMasterClock_as T t time paused); [injection H as <- | discriminate H]
  end.

Lemma exec_clock_wf e t t' : exec e t = Some t' -> clock_wf t -> clock_wf t'.
Proof.
  unfold exec, clock_wf. intros Hex Hwf.
  destruct (call e) as
    [d|name|name|name duration|name|name value|name|name|duration|name|enabled
    |clock|clock|T time paused|name| |];
    exec_inv Hex; autorewrite with timer_clock; try exact Hwf.
  unfold setMasterClock.
  destruct (Nat.eqb_spec (length clock) 8) as [E|E]; [right; exact E | exact Hwf].
Qed.

Lemma run_clock_wf es : forall t t', run es t = Some t' -> clock_wf t -> clock_wf t'.
Proof.
  induction es as [|e es IH]; intros t t' Hrun Hwf.
  - injection Hrun as <-. exact Hwf.
  - cbn [run] in Hrun. destruct (exec e t) as [t1|] eqn:He; [|discriminate].
    eapply IH; [exact Hrun|]. eapply exec_clock_wf; eassumption.
Qed.

(** C5: [setMasterClock] with a sequence whose length is not 8 changes
    nothing, whatever the registry holds (a stored clock stays, an unset
    clock stays unset); and in every registry the program can reach, the
    stored clock has length 0 or 8. *)
Theorem setMasterClock_only_8_fields (clock : Values) (es : list Event) (t : Timer) :
  length clock <> 8%nat ->
  run es initial = Some t ->
  (forall t0 : Timer, setMasterClock clock t0 = t0)
  /\ (_clock t = [] -> _clock (setMasterClock clock t) = [])
  /\ (length (_clock t) = 0%nat \/ length (_clock t) = 8%nat)
  /\ (length (_clock (setMasterClock clock t)) = 0%nat
      \/ length (_clock (setMasterClock clock t)) = 8%nat).
Proof.
  intros Hl Hrun.
  assert (Hwf : clock_wf t).
  { eapply run_clock_wf; [exact Hrun|]. left. reflexivity. }
  split; [intros t0; by apply setMasterClock_rejects|].
  rewrite (setMasterClock_rejects _ _ Hl). split; [done|]. split; exact Hwf.
Qed.

Lemma setMasterClock_only_8_fields_witness :
  length [Integer 7; Integer 7] <> 8%nat
  /\ run clock_history initial = Some (start "frame" 5 (setMasterClock in_range_clock initial))
  /\ setMasterClock [Integer 7; Integer 7]
       (start "frame" 5 (setMasterClock in_range_clock initial))
     = start "frame" 5 (setMasterClock in_range_clock initial)
  /\ length (_clock (start "frame" 5 (setMasterClock in_range_clock initial))) = 8%nat.
Proof.
  split; [cbn; lia|]. split; [reflexivity|].
  destruct (setMasterClock_only_8_fields [Integer 7; Integer 7] clock_history
              (start "frame" 5 (setMasterClock in_range_clock initial))
              ltac:(cbn; lia) eq_refl) as (Hnoop & _ & _ & _).
  split; [apply Hnoop | reflexivity].
Defined.

(** ** An unset master clock *)

(** C6: with no master clock stored (the stored sequence is empty) the
    copying getter returns false and leaves the caller's [clock] as it
    was; the decoding getter returns false, sets [paused] to true and
    leaves the caller's [time] as it was. *)
Theorem getMasterClock_unset (T : TimeUnit) (t : Timer) (clock : Values) (time : Z)
    (paused : bool) :
  _clock t = [] ->
  getMasterClock t clock = (false, clock)
  /\ getMasterClock_as T t time paused = Some (mkDecoded false time true).
Proof.
  intros Hc. unfold getMasterClock, getMasterClock_as. rewrite Hc.
  split; reflexivity.
Qed.

Lemma getMasterClock_unset_witness :
  _clock initial = []
  /\ getMasterClock initial far_clock = (false, far_clock)
  /\ getMasterClock_as seconds initial 42 false = Some (mkDecoded false 42 true).
Proof.
  split; [reflexivity|].
  exact (getMasterClock_unset seconds initial far_clock 42 false eq_refl).
Defined.

(** Once a clock is stored the copying getter hands it out. *)
Lemma getMasterClock_stored t clock :
  _clock t <> [] -> getMasterClock t clock = (true, _clock t).
Proof.
  intros Hc. unfold getMasterClock. destruct (_clock t); [contradiction | reflexivity].
Qed.

(** ** The enable flag *)

(** C7: on a disabled registry [start], [stop] and [waitUntilDuration]
    return the registry as it was (both maps included), and
    [waitUntilDuration] returns false without calling [nanosleep]. *)
Theorem disabled_measuring_is_noop (name : string) (target now : Z) (t : Timer) :
  _enabled t = false ->
  start name now t = t
  /\ stop name now t = t
  /\ timer_after (waitUntilDuration name target now t) = t
  /\ returned (waitUntilDuration name target now t) = false
  /\ nanosleep_call (waitUntilDuration name target now t) = None
  /\ slept (nanosleep_call (waitUntilDuration name target now t)) = 0
  /\ getDuration name (start name now t) = getDuration name t
  /\ getDuration name (stop name now t) = getDuration name t
  /\ getDuration name (timer_after (waitUntilDuration name target now t))
     = getDuration name t.
Proof.
  intros He.
  rewrite (start_disabled _ _ _ He), (stop_disabled _ _ _ He),
    (waitUntilDuration_disabled _ _ _ _ He).
  repeat split.
Qed.

Lemma disabled_measuring_is_noop_witness :
  _enabled frame_disabled = false
  /\ getDuration "frame" frame_disabled = 40
  /\ start "frame" 900 frame_disabled = frame_disabled
  /\ stop "frame" 900 frame_disabled = frame_disabled
  /\ waitUntilDuration "frame" 2000 900 frame_disabled = mkPaced frame_disabled false None.
Proof.
  split; [reflexivity|]. split; [reflexivity|].
  destruct (disabled_measuring_is_noop "frame" 2000 900 frame_disabled eq_refl)
    as (Hstart & Hstop & _).
  split; [exact Hstart|]. split; [exact Hstop|]. reflexivity.
Defined.

(** ** [sinceLastSeen] *)

(** C8, as amended: [sinceLastSeen] is [start] and 0 for a name without
    start timestamp, and otherwise [stop] followed by [start], returning
    what [getDuration] reads right after that [stop].  On an enabled
    registry that is the contract: the duration that [stop] recorded,
    the time elapsed since the start timestamp.  On a disabled registry
    nothing changes and the result is the duration recorded earlier
    (0 without a start timestamp). *)
Theorem sinceLastSeen_stop_then_start (name : string) (now1 now2 : Z) (t : Timer) :
  sinceLastSeen name now1 now2 t
  = match _timeMap t !! name with
    | None => (start name now1 t, 0)
    | Some _ => (start name now2 (stop name now1 t), getDuration name (stop name now1 t))
    end
  /\ sinceLastSeen name now1 now2 t
     = if _enabled t then sinceLastSeen_contract name now1 now2 t
       else (t, match _timeMap t !! name with
                | None => 0
                | Some _ => getDuration name t
                end).
Proof.
  split; [reflexivity|].
  unfold sinceLastSeen, sinceLastSeen_contract.
  destruct (_enabled t) eqn:He; destruct (_timeMap t !! name) as [startTime|] eqn:Hs.
  - rewrite (stop_armed _ _ _ _ He Hs). f_equal.
    unfold getDuration. cbn [set_durationMap _durationMap].
    by rewrite lookup_insert_eq.
  - reflexivity.
  - rewrite (stop_disabled _ _ _ He), (start_disabled _ _ _ He). reflexivity.
  - rewrite (start_disabled _ _ _ He). reflexivity.
Qed.

(** C8, as stated, fails on a disabled registry: "frame" was started at
    reading 50 and 40 us were recorded before; at reading 900
    [sinceLastSeen] returns the old 40, not the 850 us that elapsed. *)
Lemma sinceLastSeen_disabled_counterexample :
  _timeMap frame_disabled !! "frame" = Some 50
  /\ sinceLastSeen "frame" 900 901 frame_disabled = (frame_disabled, 40)
  /\ sinceLastSeen_contract "frame" 900 901 frame_disabled = (frame_disabled, 850)
  /\ sinceLastSeen "frame" 900 901 frame_disabled
     <> sinceLastSeen_contract "frame" 900 901 frame_disabled.
Proof.
  split; [reflexivity|]. split; [reflexivity|]. split; [reflexivity|].
  vm_compute. discriminate.
Qed.

(** ** Durations *)

Lemma getDuration_unknown name t : _durationMap t !! name = None -> getDuration name t = 0.
Proof. intros Hn. unfold getDuration. by rewrite Hn. Qed.

Lemma getDuration_setDuration name value t :
  getDuration name (setDuration name value t) = value.
Proof.
  rewrite setDuration_eq. unfold getDuration. cbn [set_durationMap _durationMap].
  by rewrite lookup_insert_eq.
Qed.

Lemma not_recording n name t :
  bool_decide (n = name) && armed n t = false ->
  n <> name \/ _enabled t = false \/ _timeMap t !! n = None.
Proof.
  unfold armed. destruct (bool_decide_reflect (n = name)) as [_|Hne]; [|by left].
  destruct (_enabled t); [|by right; left].
  destruct (_timeMap t !! n); [discriminate | by right; right].
Qed.

Lemma start_durationMap name now t : _durationMap (start name now t) = _durationMap t.
Proof. unfold start. destruct (negb _); [done|]. by destruct (_ !! _). Qed.

Lemma start_enabled_flag name now t : _enabled (start name now t) = _enabled t.
Proof. unfold start. destruct (negb _); [done|]. by destruct (_ !! _). Qed.

Lemma stop_keeps n name now t :
  n <> name \/ _enabled t = false \/ _timeMap t !! n = None ->
  _durationMap (stop n now t) !! name = _durationMap t !! name.
Proof.
  intros [Hne | [He | Hn]].
  - unfold stop. destruct (negb _); [done|].
    destruct (_timeMap t !! n); [|done].
    destruct (_durationMap t !! n); cbn [set_durationMap _durationMap];
      by rewrite lookup_insert_ne.
  - by rewrite stop_disabled.
  - by rewrite stop_unarmed.
Qed.

Lemma waitUntilDuration_keeps n name duration now t :
  n <> name \/ _enabled t = false \/ _timeMap t !! n = None ->
  _durationMap (timer_after (waitUntilDuration n duration now t)) !! name
  = _durationMap t !! name.
Proof.
  intros [Hne | [He | Hn]].
  - unfold waitUntilDuration. destruct (negb _); [done|].
    destruct (_timeMap t !! n); [|done].
    destruct (_durationMap t !! n); cbn [timer_after set_durationMap _durationMap];
      by rewrite lookup_insert_ne.
  - by rewrite waitUntilDuration_disabled.
  - by rewrite waitUntilDuration_unarmed.
Qed.

Lemma operator_rshift_name_keeps self n name now t :
  n <> name \/ _enabled t = false \/ _timeMap t !! n = None ->
  _durationMap (timer_after (operator_rshift_name self n now t)) !! name
  = _durationMap t !! name.
Proof.
  intros H. unfold operator_rshift_name.
  destruct (_isDurationSet t && bool_decide _); cbn [fst snd].
  - replace (set_timerMutex false (set_currentDuration 0 (set_isDurationSet false t)))
      with (with_slot 0 false (_durationThreadId t) false t) by reflexivity.
    destruct (0 <? _currentDuration t).
    + rewrite waitUntilDuration_with_slot. cbn [timer_after with_slot _durationMap].
      by apply waitUntilDuration_keeps.
    + cbn [timer_after]. rewrite stop_with_slot. cbn [with_slot _durationMap].
      by apply stop_keeps.
  - cbn [timer_after]. by apply stop_keeps.
Qed.

Lemma exec_keeps_unrecorded name e t t' :
  exec e t = Some t' ->
  records_duration name e t = false ->
  _durationMap t' !! name = _durationMap t !! name.
Proof.
  unfold exec, records_duration. destruct (call e) as
    [d|n|n|n duration|n|n value|n|n|duration|n|enabled
    |clock|clock|T time paused|n| |]; intros Hex Hrec; exec_inv Hex.
  - reflexivity.
  - by rewrite start_durationMap.
  - apply stop_keeps. by apply not_recording.
  - apply waitUntilDuration_keeps. by apply not_recording.
  - reflexivity.
  - rewrite setDuration_eq. cbn [set_durationMap _durationMap].
    apply lookup_insert_ne. by destruct (bool_decide_reflect (n = name)).
  - apply not_recording in Hrec.
    pose proof (stop_keeps n name (now1 e) t Hrec) as Hstop.
    unfold sinceLastSeen. destruct (_timeMap t !! n); cbn [fst].
    + rewrite start_durationMap. exact Hstop.
    + by rewrite start_durationMap.
  - unfold operator_lshift. cbn [set_currentDuration _durationMap].
    by rewrite start_durationMap.
  - reflexivity.
  - apply operator_rshift_name_keeps. by apply not_recording.
  - reflexivity.
  - unfold setMasterClock. by destruct (_ =? _)%nat.
  - reflexivity.
  - reflexivity.
  - reflexivity.
  - reflexivity.
  - reflexivity.
Qed.

Lemma run_keeps_unrecorded name es : forall t t',
  run es t = Some t' ->
  never_recorded name es t ->
  _durationMap t' !! name = _durationMap t !! name.
Proof.
  induction es as [|e es IH]; intros t t' Hrun Hnever.
  - by injection Hrun as <-.
  - cbn [run] in Hrun. cbn [never_recorded] in Hnever.
    destruct Hnever as [Hrec Hrest].
    destruct (exec e t) as [t1|] eqn:He; [|discriminate].
    rewrite (IH _ _ Hrun Hrest). eapply exec_keeps_unrecorded; eassumption.
Qed.

(** C9: in a registry reached by a history in which no measurement for
    [name] completed and no duration was set for it, [getDuration name]
    is 0, and the query leaves the registry as it was. *)
Theorem getDuration_unknown_is_zero (name : string) (es : list Event) (t : Timer)
    (self : thread_id) (now now' : Z) :
  run es initial = Some t ->
  never_recorded name es initial ->
  getDuration name t = 0
  /\ operator_index name t = 0
  /\ exec (mkEvent self now now' (Call_getDuration name)) t = Some t.
Proof.
  intros Hrun Hnever.
  assert (Hn : _durationMap t !! name = None).
  { rewrite (run_keeps_unrecorded _ _ _ _ Hrun Hnever). reflexivity. }
  unfold operator_index. rewrite (getDuration_unknown _ _ Hn). repeat split.
Qed.

Lemma getDuration_unknown_is_zero_witness :
  run audio_history initial
  = Some (setStatus false (stop "frame" 30 (start "audio" 2 (start "frame" 1 initial))))
  /\ never_recorded "audio" audio_history initial
  /\ getDuration "audio"
       (setStatus false (stop "frame" 30 (start "audio" 2 (start "frame" 1 initial)))) = 0
  /\ getDuration "frame"
       (setStatus false (stop "frame" 30 (start "audio" 2 (start "frame" 1 initial)))) = 29.
Proof.
  split; [reflexivity|].
  assert (Hnever : never_recorded "audio" audio_history initial)
    by (cbn; repeat split).
  split; [exact Hnever|].
  split; [|reflexivity].
  exact (proj1 (getDuration_unknown_is_zero "audio" audio_history _ 1%nat 0 0
                  eq_refl Hnever)).
Defined.

(** C10: [setDuration] and [getDuration] do not look at the enable flag.
    Whatever the flag is set to, [setDuration name value] stores [value]
    and leaves the flag alone, and [getDuration name] then returns
    [value]; on the same disabled registry [start], [stop] and
    [waitUntilDuration] change nothing. *)
Theorem setDuration_getDuration_ungated (name : string) (value now : Z) (enabled : bool)
    (t : Timer) :
  getDuration name (setDuration name value (setStatus enabled t)) = value
  /\ _durationMap (setDuration name value (setStatus enabled t)) !! name = Some value
  /\ _enabled (setDuration name value (setStatus enabled t)) = enabled
  /\ getDuration name (setDuration name value (setStatus false t)) = value
  /\ start name now (setStatus false t) = setStatus false t
  /\ stop name now (setStatus false t) = setStatus false t
  /\ waitUntilDuration name value now (setStatus false t)
     = mkPaced (setStatus false t) false None.
Proof.
  split; [apply getDuration_setDuration|].
  split; [rewrite setDuration_eq; cbn [set_durationMap _durationMap];
          apply lookup_insert_eq|].
  split; [rewrite setDuration_eq; reflexivity|].
  split; [apply getDuration_setDuration|].
  split; [by apply start_disabled|].
  split; [by apply stop_disabled|].
  by apply waitUntilDuration_disabled.
Qed.


(** * Further properties of the code *)

(** ** Measuring: round trips and composition *)

Lemma start_timeMap_enabled name now t :
  _enabled t = true -> _timeMap (start name now t) = <[name := u64 now]> (_timeMap t).
Proof. intros He. by rewrite start_enabled. Qed.

Lemma stop_timeMap name now t : _timeMap (stop name now t) = _timeMap t.
Proof.
  unfold stop. destruct (negb _); [done|].
  destruct (_timeMap t !! name); [|done]. by destruct (_durationMap t !! name).
Qed.

Lemma stop_enabled_flag name now t : _enabled (stop name now t) = _enabled t.
Proof.
  unfold stop. destruct (negb _); [done|].
  destruct (_timeMap t !! name); [|done]. by destruct (_durationMap t !! name).
Qed.

Lemma getDuration_stop_armed name now t startTime :
  _enabled t = true -> _timeMap t !! name = Some startTime ->
  getDuration name (stop name now t) = u64 (now - startTime).
Proof.
  intros He Hs. rewrite (stop_armed _ _ _ _ He Hs).
  unfold getDuration. cbn [set_durationMap _durationMap]. by rewrite lookup_insert_eq.
Qed.

(** X1: on an enabled registry, [start] at reading [now1] followed by
    [stop] at a later reading [now2] of the monotonic clock records
    exactly [now2 - now1] for that name, whatever was stored before. *)
Theorem start_stop_measures (name : string) (now1 now2 : Z) (t : Timer) :
  _enabled t = true ->
  0 <= now1 <= now2 ->
  now2 <= INT64_MAX ->
  getDuration name (stop name now2 (start name now1 t)) = now2 - now1.
Proof.
  intros He Hmono Hmax.
  assert (Hin : in_u64 now1) by (unfold in_u64, UINT64_MOD, INT64_MAX in *; lia).
  rewrite (getDuration_stop_armed name now2 (start name now1 t) (u64 now1)).
  - rewrite (u64_id _ Hin). apply elapsed_monotonic; assumption.
  - by rewrite start_enabled_flag.
  - rewrite (start_timeMap_enabled _ _ _ He). apply lookup_insert_eq.
Qed.

Lemma start_stop_measures_witness :
  _enabled frame_disabled = false
  /\ _enabled (setStatus true frame_disabled) = true
  /\ 0 <= 1000 <= 17667 /\ 17667 <= INT64_MAX
  /\ getDuration "frame" (setStatus true frame_disabled) = 40
  /\ getDuration "frame"
       (stop "frame" 17667 (start "frame" 1000 (setStatus true frame_disabled))) = 16667.
Proof.
  split; [reflexivity|]. split; [reflexivity|]. split; [lia|].
  split; [unfold INT64_MAX; lia|]. split; [reflexivity|].
  exact (start_stop_measures "frame" 1000 17667 (setStatus true frame_disabled)
           eq_refl ltac:(lia) ltac:(unfold INT64_MAX; lia)).
Defined.

(** X2: a second [start] for a name replaces the first, and a second
    [stop] measures again from the same start timestamp and replaces the
    duration of the first: in both, only the last call shows. *)
Theorem last_start_and_last_stop_win (name : string) (now1 now2 : Z) (t : Timer) :
  start name now2 (start name now1 t) = start name now2 t
  /\ stop name now2 (stop name now1 t) = stop name now2 t.
Proof.
  split.
  - destruct (_enabled t) eqn:He.
    + rewrite (start_enabled name now2 (start name now1 t))
        by (by rewrite start_enabled_flag).
      rewrite !(start_enabled _ _ t He).
      cbn [set_timeMap _timeMap]. by rewrite insert_insert_eq.
    + by rewrite !(start_disabled _ _ t He).
  - destruct (_enabled t) eqn:He.
    + destruct (_timeMap t !! name) as [startTime|] eqn:Hs.
      * rewrite (stop_armed name now2 (stop name now1 t) startTime)
          by (by rewrite ?stop_enabled_flag, ?stop_timeMap).
        rewrite !(stop_armed _ _ t _ He Hs).
        cbn [set_durationMap _durationMap]. by rewrite insert_insert_eq.
      * by rewrite !(stop_unarmed _ _ t Hs).
    + by rewrite !(stop_disabled _ _ t He).
Qed.

(** ** What a call can write into the two maps *)

Lemma start_timeMap_cases name now t :
  _timeMap (start name now t) = _timeMap t
  \/ _timeMap (start name now t) = <[name := u64 now]> (_timeMap t).
Proof.
  destruct (_enabled t) eqn:He.
  - right. by apply start_timeMap_enabled.
  - left. by rewrite start_disabled.
Qed.

Lemma waitUntilDuration_timeMap name duration now t :
  _timeMap (timer_after (waitUntilDuration name duration now t)) = _timeMap t.
Proof.
  unfold waitUntilDuration. destruct (negb _); [done|].
  destruct (_timeMap t !! name); [|done]. by destruct (_durationMap t !! name).
Qed.

Lemma operator_rshift_name_timeMap self name now t :
  _timeMap (timer_after (operator_rshift_name self name now t)) = _timeMap t.
Proof.
  unfold operator_rshift_name.
  destruct (_isDurationSet t && bool_decide _); cbn [fst snd];
    destruct (0 <? _); cbn [timer_after];
    by rewrite ?waitUntilDuration_timeMap, ?stop_timeMap.
Qed.

Lemma stop_durationMap_cases name now t :
  _durationMap (stop name now t) = _durationMap t
  \/ exists v, _durationMap (stop name now t) = <[name := v]> (_durationMap t).
Proof.
  unfold stop. destruct (negb _); [by left|].
  destruct (_timeMap t !! name); [|by left].
  right. eexists. by destruct (_durationMap t !! name).
Qed.

Lemma waitUntilDuration_durationMap_cases name duration now t :
  _durationMap (timer_after (waitUntilDuration name duration now t)) = _durationMap t
  \/ exists v, _durationMap (timer_after (waitUntilDuration name duration now t))
               = <[name := v]> (_durationMap t).
Proof.
  unfold waitUntilDuration. destruct (negb _); [by left|].
  destruct (_timeMap t !! name); [|by left].
  right. eexists. by destruct (_durationMap t !! name).
Qed.

Lemma operator_rshift_name_durationMap_cases self name now t :
  _durationMap (timer_after (operator_rshift_name self name now t)) = _durationMap t
  \/ exists v, _durationMap (timer_after (operator_rshift_name self name now t))
               = <[name := v]> (_durationMap t).
Proof.
  unfold operator_rshift_name.
  destruct (_isDurationSet t && bool_decide _); cbn [fst snd].
  - replace (set_timerMutex false (set_currentDuration 0 (set_isDurationSet false t)))
      with (with_slot 0 false (_durationThreadId t) false t) by reflexivity.
    destruct (0 <? _currentDuration t).
    + rewrite waitUntilDuration_with_slot. cbn [timer_after with_slot _durationMap].
      apply waitUntilDuration_durationMap_cases.
    + cbn [timer_after]. rewrite stop_with_slot. cbn [with_slot _durationMap].
      apply stop_durationMap_cases.
  - cbn [timer_after]. apply stop_durationMap_cases.
Qed.

(** A returning call leaves the timestamps alone or stores one reading
    under the name it was given. *)
Lemma exec_timeMap_cases e t t' :
  exec e t = Some t' ->
  _timeMap t' = _timeMap t
  \/ exists n now, written_name (call e) = Some n
                   /\ _timeMap t' = <[n := u64 now]> (_timeMap t).
Proof.
  unfold exec. intros Hex.
  destruct (call e) as
    [d|n|n|n duration|n|n value|n|n|duration|n|enabled
    |clock|clock|T time paused|n| |]; exec_inv Hex; cbn [written_name];
    try (by left).
  - destruct (start_timeMap_cases n (now1 e) t) as [E|E]; [by left|].
    right. by exists n, (now1 e).
  - left. apply stop_timeMap.
  - left. apply waitUntilDuration_timeMap.
  - left. by rewrite setDuration_eq.
  - unfold sinceLastSeen. destruct (_timeMap t !! n); cbn [fst].
    + destruct (start_timeMap_cases n (now2 e) (stop n (now1 e) t)) as [E|E];
        rewrite stop_timeMap in E; [by left|].
      right. by exists n, (now2 e).
    + destruct (start_timeMap_cases n (now1 e) t) as [E|E]; [by left|].
      right. by exists n, (now1 e).
  - unfold operator_lshift. cbn [set_currentDuration _timeMap].
    destruct (start_timeMap_cases n (now1 e) t) as [E|E]; [by left|].
    right. by exists n, (now1 e).
  - left. apply operator_rshift_name_timeMap.
  - left. unfold setMasterClock. by destruct (_ =? _)%nat.
Qed.

(** Likewise for the durations. *)
Lemma exec_durationMap_cases e t t' :
  exec e t = Some t' ->
  _durationMap t' = _durationMap t
  \/ exists n v, written_name (call e) = Some n
                 /\ _durationMap t' = <[n := v]> (_durationMap t).
Proof.
  unfold exec. intros Hex.
  destruct (call e) as
    [d|n|n|n duration|n|n value|n|n|duration|n|enabled
    |clock|clock|T time paused|n| |]; exec_inv Hex; cbn [written_name];
    try (by left).
  - left. apply start_durationMap.
  - destruct (stop_durationMap_cases n (now1 e) t) as [E|[v E]]; [by left|].
    right. by exists n, v.
  - destruct (waitUntilDuration_durationMap_cases n duration (now1 e) t) as [E|[v E]];
      [by left|]. right. by exists n, v.
  - right. exists n, value. by rewrite setDuration_eq.
  - unfold sinceLastSeen. destruct (_timeMap t !! n); cbn [fst].
    + rewrite start_durationMap.
      destruct (stop_durationMap_cases n (now1 e) t) as [E|[v E]]; [by left|].
      right. by exists n, v.
    + left. apply start_durationMap.
  - left. unfold operator_lshift. cbn [set_currentDuration _durationMap].
    apply start_durationMap.
  - destruct (operator_rshift_name_durationMap_cases (self e) n (now1 e) t)
      as [E|[v E]]; [by left|]. right. by exists n, v.
  - left. unfold setMasterClock. by destruct (_ =? _)%nat.
Qed.

(** X3: a call given one name never changes the start timestamp or the
    duration of another name; calls that take no name change none. *)
Theorem other_names_untouched (e : Event) (t t' : Timer) (name : string) :
  exec e t = Some t' ->
  written_name (call e) <> Some name ->
  _timeMap t' !! name = _timeMap t !! name
  /\ _durationMap t' !! name = _durationMap t !! name
  /\ getDuration name t' = getDuration name t.
Proof.
  intros Hex Hne.
  assert (Hd : _durationMap t' !! name = _durationMap t !! name).
  { destruct (exec_durationMap_cases _ _ _ Hex) as [->|(n & v & Hn & ->)]; [done|].
    apply lookup_insert_ne. congruence. }
  split; [|split; [exact Hd | unfold getDuration; by rewrite Hd]].
  destruct (exec_timeMap_cases _ _ _ Hex) as [->|(n & now & Hn & ->)]; [done|].
  apply lookup_insert_ne. congruence.
Qed.

Lemma other_names_untouched_witness :
  exec (mkEvent 1%nat 900 901 (Call_sinceLastSeen "audio"))
       (setStatus true frame_disabled)
  = Some (start "audio" 900 (setStatus true frame_disabled))
  /\ written_name (Call_sinceLastSeen "audio") <> Some "frame"
  /\ _timeMap (start "audio" 900 (setStatus true frame_disabled)) !! "frame" = Some 50
  /\ getDuration "frame" (start "audio" 900 (setStatus true frame_disabled)) = 40.
Proof.
  split; [reflexivity|]. split; [discriminate|].
  destruct (other_names_untouched (mkEvent 1%nat 900 901 (Call_sinceLastSeen "audio"))
              (setStatus true frame_disabled)
              (start "audio" 900 (setStatus true frame_disabled)) "frame"
              eq_refl ltac:(discriminate)) as (Ht & _ & Hg).
  split; [rewrite Ht | rewrite Hg]; reflexivity.
Defined.

(** X4: the registry has no way to forget a name: over every history, a
    name that has a start timestamp keeps one, and a name that has a
    duration keeps one. *)
Theorem entries_are_never_removed (es : list Event) (t t' : Timer) (name : string) :
  run es t = Some t' ->
  (is_Some (_timeMap t !! name) -> is_Some (_timeMap t' !! name))
  /\ (is_Some (_durationMap t !! name) -> is_Some (_durationMap t' !! name)).
Proof.
  revert t. induction es as [|e es IH]; intros t Hrun.
  - injection Hrun as <-. done.
  - cbn [run] in Hrun. destruct (exec e t) as [t1|] eqn:He; [|discriminate].
    destruct (IH _ Hrun) as [IHt IHd]. split; intros Hs.
    + apply IHt.
      destruct (exec_timeMap_cases _ _ _ He) as [->|(n & now & _ & ->)]; [done|].
      destruct (decide (n = name)) as [->|Hne].
      * rewrite lookup_insert_eq. by eexists.
      * by rewrite lookup_insert_ne.
    + apply IHd.
      destruct (exec_durationMap_cases _ _ _ He) as [->|(n & v & _ & ->)]; [done|].
      destruct (decide (n = name)) as [->|Hne].
      * rewrite lookup_insert_eq. by eexists.
      * by rewrite lookup_insert_ne.
Qed.

Lemma entries_are_never_removed_witness :
  run gated_history frame_disabled = Some frame_disabled
  /\ is_Some (_timeMap frame_disabled !! "frame")
  /\ is_Some (_durationMap frame_disabled !! "frame").
Proof.
  split; [reflexivity|].
  destruct (entries_are_never_removed gated_history frame_disabled frame_disabled
              "frame" eq_refl) as [Ht Hd].
  split; [apply Ht | apply Hd]; by eexists.
Defined.

(** A returning call leaves the timestamps alone, or is a [start], a
    [sinceLastSeen] or an [operator<<] for a name and stores one of the
    clock readings it took under that name. *)
Lemma exec_timeMap_provenance e t t' :
  exec e t = Some t' ->
  _timeMap t' = _timeMap t
  \/ exists n now, arming_call n (call e) = true
                   /\ (now = now1 e \/ now = now2 e)
                   /\ _timeMap t' = <[n := u64 now]> (_timeMap t).
Proof.
  unfold exec. intros Hex.
  destruct (call e) as
    [d|n|n|n duration|n|n value|n|n|duration|n|enabled
    |clock|clock|T time paused|n| |]; exec_inv Hex; cbn [arming_call];
    try (by left).
  - destruct (start_timeMap_cases n (now1 e) t) as [E|E]; [by left|].
    right. exists n, (now1 e). rewrite bool_decide_eq_true_2 by done. auto.
  - left. apply stop_timeMap.
  - left. apply waitUntilDuration_timeMap.
  - left. by rewrite setDuration_eq.
  - unfold sinceLastSeen. destruct (_timeMap t !! n); cbn [fst].
    + destruct (start_timeMap_cases n (now2 e) (stop n (now1 e) t)) as [E|E];
        rewrite stop_timeMap in E; [by left|].
      right. exists n, (now2 e). rewrite bool_decide_eq_true_2 by done. auto.
    + destruct (start_timeMap_cases n (now1 e) t) as [E|E]; [by left|].
      right. exists n, (now1 e). rewrite bool_decide_eq_true_2 by done. auto.
  - unfold operator_lshift. cbn [set_currentDuration _timeMap].
    destruct (start_timeMap_cases n (now1 e) t) as [E|E]; [by left|].
    right. exists n, (now1 e). rewrite bool_decide_eq_true_2 by done. auto.
  - left. apply operator_rshift_name_timeMap.
  - left. unfold setMasterClock. by destruct (_ =? _)%nat.
Qed.

Lemma run_timeMap_provenance name ts es : forall t0 t,
  run es t0 = Some t ->
  _timeMap t !! name = Some ts ->
  _timeMap t0 !! name = Some ts
  \/ exists e, e ∈ es /\ arming_call name (call e) = true
               /\ (ts = u64 (now1 e) \/ ts = u64 (now2 e)).
Proof.
  induction es as [|e es IH]; intros t0 t Hrun Hts.
  - injection Hrun as <-. by left.
  - cbn [run] in Hrun. destruct (exec e t0) as [t1|] eqn:He; [|discriminate].
    destruct (IH _ _ Hrun Hts) as [H1 | (e' & Hin & Harm & Hread)].
    + destruct (exec_timeMap_provenance _ _ _ He) as [E | (n & now & Harm & Hnow & E)].
      * left. by rewrite <- E.
      * rewrite E in H1. destruct (decide (n = name)) as [->|Hne].
        -- rewrite lookup_insert_eq in H1. injection H1 as <-.
           right. exists e. split; [apply list_elem_of_here|]. split; [exact Harm|].
           destruct Hnow as [->| ->]; auto.
        -- rewrite lookup_insert_ne in H1 by done. by left.
    + right. exists e'. split; [by apply list_elem_of_further|]. by split.
Qed.

(** X5: start timestamps have one origin.  In every registry the program
    can reach, the start timestamp stored for a name is a steady-clock
    reading taken by a [start], [sinceLastSeen] or [operator<<] call of
    the history for that very name, converted to [unsigned long long]:
    no other call, and no call for another name, ever writes it. *)
Theorem timestamps_are_clock_readings (es : list Event) (t : Timer) (name : string)
    (ts : Z) :
  run es initial = Some t ->
  _timeMap t !! name = Some ts ->
  exists e, e ∈ es
            /\ arming_call name (call e) = true
            /\ (ts = u64 (now1 e) \/ ts = u64 (now2 e)).
Proof.
  intros Hrun Hts.
  destruct (run_timeMap_provenance name ts es initial t Hrun Hts) as [H|H]; [|exact H].
  cbn in H. by rewrite lookup_empty in H.
Qed.

Lemma timestamps_are_clock_readings_witness :
  run clock_history initial = Some (start "frame" 5 (setMasterClock in_range_clock initial))
  /\ _timeMap (start "frame" 5 (setMasterClock in_range_clock initial)) !! "frame" = Some 5
  /\ exists e, e ∈ clock_history
               /\ arming_call "frame" (call e) = true
               /\ (5 = u64 (now1 e) \/ 5 = u64 (now2 e)).
Proof.
  split; [reflexivity|]. split; [reflexivity|].
  exact (timestamps_are_clock_readings clock_history
           (start "frame" 5 (setMasterClock in_range_clock initial)) "frame" 5
           eq_refl eq_refl).
Defined.

(** ** [sinceLastSeen] as a tick counter *)

Lemma sinceLastSeen_first name now1 now2 t :
  _enabled t = true -> _timeMap t !! name = None ->
  sinceLastSeen name now1 now2 t
  = (set_timeMap (<[name := u64 now1]> (_timeMap t)) t, 0).
Proof.
  intros He Hn. unfold sinceLastSeen. rewrite Hn. by rewrite start_enabled.
Qed.

(** X6: on an enabled registry the first [sinceLastSeen] for a name
    returns 0, and the next one returns the time between the reading the
    first call took and the reading the second call takes in [stop]; it
    then re-arms the name at the reading it takes in [start]. *)
Theorem sinceLastSeen_measures_interval (name : string) (first next1 next2 unused : Z)
    (t : Timer) :
  _enabled t = true ->
  _timeMap t !! name = None ->
  0 <= first <= next1 ->
  next1 <= next2 <= INT64_MAX ->
  snd (sinceLastSeen name first unused t) = 0
  /\ snd (sinceLastSeen name next1 next2 (fst (sinceLastSeen name first unused t)))
     = next1 - first
  /\ _timeMap (fst (sinceLastSeen name next1 next2
                      (fst (sinceLastSeen name first unused t)))) !! name
     = Some next2.
Proof.
  intros He Hn Hfirst Hnext.
  assert (Hin : in_u64 first) by (unfold in_u64, UINT64_MOD, INT64_MAX in *; lia).
  assert (Hin2 : in_u64 next2) by (unfold in_u64, UINT64_MOD, INT64_MAX in *; lia).
  rewrite (sinceLastSeen_first _ _ _ _ He Hn). cbn [fst snd].
  split; [reflexivity|].
  set (t1 := set_timeMap (<[name:=u64 first]> (_timeMap t)) t).
  assert (He1 : _enabled t1 = true) by exact He.
  assert (Hs1 : _timeMap t1 !! name = Some (u64 first))
    by (subst t1; cbn [set_timeMap _timeMap]; apply lookup_insert_eq).
  unfold sinceLastSeen. rewrite Hs1. cbn [fst snd]. split.
  - rewrite (getDuration_stop_armed _ _ _ _ He1 Hs1). rewrite (u64_id _ Hin).
    apply elapsed_monotonic; lia.
  - rewrite start_timeMap_enabled by (by rewrite stop_enabled_flag).
    rewrite lookup_insert_eq. by rewrite (u64_id _ Hin2).
Qed.

Lemma sinceLastSeen_measures_interval_witness :
  _enabled initial = true /\ _timeMap initial !! "tick" = None
  /\ 0 <= 1000 <= 17667 /\ 17667 <= 17670 <= INT64_MAX
  /\ snd (sinceLastSeen "tick" 1000 1000 initial) = 0
  /\ snd (sinceLastSeen "tick" 17667 17670 (fst (sinceLastSeen "tick" 1000 1000 initial)))
     = 16667.
Proof.
  split; [reflexivity|]. split; [reflexivity|]. split; [lia|].
  split; [unfold INT64_MAX; lia|].
  destruct (sinceLastSeen_measures_interval "tick" 1000 17667 17670 1000 initial
              eq_refl eq_refl ltac:(lia) ltac:(unfold INT64_MAX; lia)) as (H0 & H1 & _).
  split; [exact H0 | exact H1].
Defined.

(** ** A disabled registry *)

Lemma exec_gated_disabled e t :
  _enabled t = false -> gated_call (call e) = true -> exec e t = Some t.
Proof.
  intros He Hg. unfold exec.
  destruct (call e); try discriminate Hg; try reflexivity.
  - by rewrite start_disabled.
  - by rewrite stop_disabled.
  - by rewrite waitUntilDuration_disabled.
  - unfold sinceLastSeen. destruct (_timeMap t !! name); cbn [fst];
      by rewrite ?stop_disabled, ?start_disabled.
Qed.

(** X7: switching an enabled registry off, making any sequence of
    [start], [stop], [waitUntilDuration], [sinceLastSeen] calls and
    queries, and switching it on again gives back the registry as it was:
    the calls made meanwhile leave no trace, and the timestamps taken
    before are still armed. *)
Theorem disabled_registry_is_frozen (es : list Event) (t : Timer) :
  _enabled t = true ->
  Forall (fun e => gated_call (call e) = true) es ->
  run es (setStatus false t) = Some (setStatus false t)
  /\ setStatus true (setStatus false t) = t.
Proof.
  intros He Hall. split.
  - induction Hall as [|e es Hg _ IH]; [reflexivity|].
    cbn [run]. by rewrite (exec_gated_disabled e (setStatus false t) eq_refl Hg).
  - destruct t. cbn in He. by subst.
Qed.

Lemma disabled_registry_is_frozen_witness :
  _enabled (start "frame" 50 (stop "frame" 40 frame_started)) = true
  /\ Forall (fun e => gated_call (call e) = true) gated_history
  /\ run gated_history frame_disabled = Some frame_disabled
  /\ setStatus true frame_disabled = start "frame" 50 (stop "frame" 40 frame_started).
Proof.
  split; [reflexivity|].
  assert (Hall : Forall (fun e => gated_call (call e) = true) gated_history)
    by (repeat constructor).
  split; [exact Hall|].
  exact (disabled_registry_is_frozen gated_history
           (start "frame" 50 (stop "frame" 40 frame_started)) eq_refl Hall).
Defined.

(** ** Pacing below one second *)

(** X22: on an enabled registry, for a name started at an earlier
    reading of the clock, [waitUntilDuration] returns true exactly when
    the target has already elapsed; it records the larger of target and
    elapsed time and keeps the start timestamp; past the target it asks
    for no sleep, and with less than a second to go it sleeps exactly
    the remaining microseconds, as nanoseconds. *)
Theorem waitUntilDuration_paces (name : string) (target now startTime : Z) (t : Timer) :
  _enabled t = true ->
  _timeMap t !! name = Some startTime ->
  0 <= startTime <= now ->
  now <= INT64_MAX ->
  0 <= target < 2 ^ 64 ->
  returned (waitUntilDuration name target now t) = (target <=? now - startTime)
  /\ getDuration name (timer_after (waitUntilDuration name target now t))
     = Z.max target (now - startTime)
  /\ _timeMap (timer_after (waitUntilDuration name target now t)) = _timeMap t
  /\ (target <= now - startTime ->
      slept (nanosleep_call (waitUntilDuration name target now t)) = 0)
  /\ (0 < target - (now - startTime) < 1000000 ->
      slept (nanosleep_call (waitUntilDuration name target now t))
      = (target - (now - startTime)) * 1000).
Proof.
  intros He Hs Hmono Hmax Htarget.
  destruct (waitUntilDuration_branches name target now t startTime He Hs Hmono Hmax Htarget)
    as (Hd & _ & Ht & Hover & Hearly).
  split; [|split; [exact Hd | split; [exact Ht | split]]].
  - destruct (Z.leb_spec target (now - startTime)) as [Hle|Hlt].
    + by destruct (Hover Hle).
    + by destruct (Hearly Hlt).
  - intros Hle. by destruct (Hover Hle).
  - intros Hgap. destruct (Hearly ltac:(lia)) as [_ Hsleep]. apply Hsleep. lia.
Qed.

(** A frame opened at reading 1000 and paced to 16667 us at reading
    6000: 11667 us remain. *)
Lemma waitUntilDuration_paces_witness :
  _enabled (start "frame" 1000 initial) = true
  /\ _timeMap (start "frame" 1000 initial) !! "frame" = Some 1000
  /\ 0 <= 1000 <= 6000 /\ 6000 <= INT64_MAX /\ 0 <= 16667 < 2 ^ 64
  /\ 0 < 16667 - (6000 - 1000) < 1000000
  /\ returned (waitUntilDuration "frame" 16667 6000 (start "frame" 1000 initial)) = false
  /\ slept (nanosleep_call
       (waitUntilDuration "frame" 16667 6000 (start "frame" 1000 initial))) = 11667000
  /\ getDuration "frame"
       (timer_after (waitUntilDuration "frame" 16667 6000 (start "frame" 1000 initial)))
     = 16667.
Proof.
  split; [reflexivity|]. split; [reflexivity|]. split; [lia|].
  split; [unfold INT64_MAX; lia|]. split; [lia|]. split; [lia|].
  destruct (waitUntilDuration_paces "frame" 16667 6000 1000 (start "frame" 1000 initial)
              eq_refl eq_refl ltac:(lia) ltac:(unfold INT64_MAX; lia) ltac:(lia))
    as (Hret & Hd & _ & _ & Hearly).
  split; [exact Hret|]. split; [exact (Hearly ltac:(lia)) | exact Hd].
Defined.

(** ** The hand-off lock *)

Lemma start_slot name now t :
  _currentDuration (start name now t) = _currentDuration t /\
  _isDurationSet (start name now t) = _isDurationSet t /\
  _durationThreadId (start name now t) = _durationThreadId t /\
  _timerMutex (start name now t) = _timerMutex t.
Proof.
  unfold start. destruct (negb (_enabled t)); [done|].
  destruct (_timeMap t !! name); done.
Qed.

Lemma waitUntilDuration_slot name duration now t :
  _currentDuration (timer_after (waitUntilDuration name duration now t)) = _currentDuration t /\
  _isDurationSet (timer_after (waitUntilDuration name duration now t)) = _isDurationSet t /\
  _durationThreadId (timer_after (waitUntilDuration name duration now t))
  = _durationThreadId t /\
  _timerMutex (timer_after (waitUntilDuration name duration now t)) = _timerMutex t.
Proof.
  unfold waitUntilDuration. destruct (negb (_enabled t)); [done|].
  destruct (_timeMap t !! name); [|done].
  destruct (_durationMap t !! name); done.
Qed.

(** After [operator>>(name)] the slot is idle (the owner consumed) or as
    it was. *)
Lemma operator_rshift_name_slot_cases self name now t :
  (_isDurationSet (timer_after (operator_rshift_name self name now t)) = false
   /\ _timerMutex (timer_after (operator_rshift_name self name now t)) = false)
  \/ (_isDurationSet (timer_after (operator_rshift_name self name now t)) = _isDurationSet t
      /\ _durationThreadId (timer_after (operator_rshift_name self name now t))
         = _durationThreadId t
      /\ _timerMutex (timer_after (operator_rshift_name self name now t)) = _timerMutex t).
Proof.
  unfold operator_rshift_name.
  destruct (_isDurationSet t && bool_decide _); cbn [fst snd].
  - left. destruct (0 <? _currentDuration t); cbn [timer_after].
    + destruct (waitUntilDuration_slot name (_currentDuration t) now
        (set_timerMutex false (set_currentDuration 0 (set_isDurationSet false t))))
        as (_ & -> & _ & ->). done.
    + destruct (stop_slot name now
        (set_timerMutex false (set_currentDuration 0 (set_isDurationSet false t))))
        as (_ & -> & _ & ->). done.
  - right. change (0 <? 0) with false. cbn [timer_after].
    destruct (stop_slot name now t) as (_ & -> & -> & ->). done.
Qed.

Lemma exec_slot_consistent e t t' :
  exec e t = Some t' -> slot_consistent t -> slot_consistent t'.
Proof.
  unfold exec, slot_consistent. intros Hex [Hlock Howner].
  destruct (call e) as
    [d|n|n|n duration|n|n value|n|n|duration|n|enabled
    |clock|clock|T time paused|n| |]; exec_inv Hex; try (split; assumption).
  - destruct (start_slot n (now1 e) t) as (_ & -> & -> & ->). by split.
  - destruct (stop_slot n (now1 e) t) as (_ & -> & -> & ->). by split.
  - destruct (waitUntilDuration_slot n duration (now1 e) t) as (_ & -> & -> & ->).
    by split.
  - rewrite setDuration_eq. by split.
  - unfold sinceLastSeen. destruct (_timeMap t !! n); cbn [fst].
    + destruct (start_slot n (now2 e) (stop n (now1 e) t)) as (_ & -> & -> & ->).
      destruct (stop_slot n (now1 e) t) as (_ & -> & -> & ->). by split.
    + destruct (start_slot n (now1 e) t) as (_ & -> & -> & ->). by split.
  - unfold operator_lshift.
    cbn [set_currentDuration _timerMutex _isDurationSet _durationThreadId].
    destruct (start_slot n (now1 e) t) as (_ & -> & -> & ->). by split.
  - cbn [with_slot _timerMutex _isDurationSet _durationThreadId]. split; [done|].
    intros _. by eexists.
  - destruct (operator_rshift_name_slot_cases (self e) n (now1 e) t)
      as [[-> ->] | (-> & -> & ->)]; by split.
  - unfold setMasterClock. destruct (_ =? _)%nat; by split.
Qed.







Lemma operator_rshift_name_owner_unlocks self name now t :
  _isDurationSet t = true -> _durationThreadId t = Some self ->
  _timerMutex (timer_after (operator_rshift_name self name now t)) = false
  /\ _isDurationSet (timer_after (operator_rshift_name self name now t)) = false
  /\ _currentDuration (timer_after (operator_rshift_name self name now t)) = 0.
Proof.
  intros Hf Ho. rewrite (operator_rshift_name_owner _ _ _ _ Hf Ho).
  destruct (0 <? _currentDuration t); cbn [timer_after].
  - destruct (waitUntilDuration_slot name (_currentDuration t) now
                (with_slot 0 false (Some self) false t)) as (-> & -> & _ & ->). done.
  - destruct (stop_slot name now (with_slot 0 false (Some self) false t))
      as (-> & -> & _ & ->). done.
Qed.

(** X9: once a thread [A] has published, every further publish, by any
    thread, does not return: not right away, and not after a consume by
    another thread [B], which leaves the lock held.  Only the consume by
    [A] releases the lock, after which a publish returns again. *)
Theorem only_the_publisher_releases_the_lock (A B C : thread_id) (name : string)
    (d d' now : Z) (t t' : Timer) :
  operator_rshift_value A d t = Some t' ->
  B <> A ->
  operator_rshift_value C d' t' = None
  /\ operator_rshift_value C d' (timer_after (operator_rshift_name B name now t')) = None
  /\ operator_rshift_value C d' (timer_after (operator_rshift_name A name now t'))
     = Some (with_slot d' true (Some C) true
               (timer_after (operator_rshift_name A name now t'))).
Proof.
  intros Hpub Hne. apply operator_rshift_value_Some in Hpub as [_ ->].
  split; [by apply operator_rshift_value_held|]. split.
  - apply operator_rshift_value_held.
    rewrite operator_rshift_name_stranger
      by (right; cbn [with_slot _durationThreadId]; congruence).
    cbn [timer_after].
    by destruct (stop_slot name now (with_slot d true (Some A) true t)) as (_ & _ & _ & ->).
  - apply operator_rshift_value_free.
    by destruct (operator_rshift_name_owner_unlocks A name now
                   (with_slot d true (Some A) true t) eq_refl eq_refl) as [-> _].
Qed.

Lemma only_the_publisher_releases_the_lock_witness :
  operator_rshift_value 1%nat 5000 frame_started
  = Some (with_slot 5000 true (Some 1%nat) true frame_started)
  /\ 2%nat <> 1%nat
  /\ operator_rshift_value 2%nat 7000
       (timer_after (operator_rshift_name 2%nat "frame" 100
          (with_slot 5000 true (Some 1%nat) true frame_started))) = None
  /\ is_Some (operator_rshift_value 2%nat 7000
       (timer_after (operator_rshift_name 1%nat "frame" 100
          (with_slot 5000 true (Some 1%nat) true frame_started)))).
Proof.
  split; [reflexivity|]. split; [lia|].
  destruct (only_the_publisher_releases_the_lock 1%nat 2%nat 2%nat "frame" 5000 7000 100
              frame_started (with_slot 5000 true (Some 1%nat) true frame_started)
              eq_refl ltac:(lia)) as (_ & Hother & Hself).
  split; [exact Hother|]. rewrite Hself. by eexists.
Defined.

(** X10: a published value of 0 does not pace: the consume on the
    publishing thread is a plain [stop] that returns false and never
    calls [nanosleep], yet it clears the flag and releases the lock. *)
Theorem published_zero_only_stops (A : thread_id) (name : string) (now : Z)
    (t t' : Timer) :
  operator_rshift_value A 0 t = Some t' ->
  operator_rshift_name A name now t'
  = mkPaced (with_slot 0 false (Some A) false (stop name now t)) false None.
Proof.
  intros Hpub. apply operator_rshift_value_Some in Hpub as [_ ->].
  rewrite operator_rshift_name_owner by reflexivity.
  change (_currentDuration (with_slot 0 true (Some A) true t)) with 0.
  change (0 <? 0) with false. cbv iota.
  rewrite !stop_with_slot. reflexivity.
Qed.

Lemma published_zero_only_stops_witness :
  operator_rshift_value 1%nat 0 frame_started
  = Some (with_slot 0 true (Some 1%nat) true frame_started)
  /\ operator_rshift_name 1%nat "frame" 16667
       (with_slot 0 true (Some 1%nat) true frame_started)
     = mkPaced (with_slot 0 false (Some 1%nat) false (stop "frame" 16667 frame_started))
         false None
  /\ getDuration "frame" (stop "frame" 16667 frame_started) = 16667.
Proof.
  split; [reflexivity|].
  split; [|reflexivity].
  exact (published_zero_only_stops 1%nat "frame" 16667 frame_started
           (with_slot 0 true (Some 1%nat) true frame_started) eq_refl).
Defined.

(** X21: the stream idiom [timer << name; ...; timer >> d >> name] on
    one thread, with the lock free and [d] positive, paces the span
    opened by [<<]: the consume returns what [waitUntilDuration name d]
    returns after [start name], makes the same [nanosleep] request and
    leaves the same registry, with the slot idle again. *)
Theorem stream_idiom_paces (A : thread_id) (name : string) (d now1 now2 : Z) (t : Timer) :
  _timerMutex t = false ->
  0 < d ->
  exists t1,
    operator_rshift_value A d (operator_lshift name now1 t) = Some t1
    /\ operator_rshift_name A name now2 t1
       = mkPaced
           (with_slot 0 false (Some A) false
              (timer_after (waitUntilDuration name d now2 (start name now1 t))))
           (returned (waitUntilDuration name d now2 (start name now1 t)))
           (nanosleep_call (waitUntilDuration name d now2 (start name now1 t))).
Proof.
  intros Hfree Hd.
  assert (Hpos : (0 <? d) = true) by (apply Z.ltb_lt; exact Hd).
  assert (Hopen : operator_lshift name now1 t
                  = with_slot 0 (_isDurationSet t) (_durationThreadId t) false
                      (start name now1 t)).
  { rewrite <- (with_slot_same t) at 1. unfold operator_lshift.
    rewrite start_with_slot, Hfree. reflexivity. }
  exists (with_slot d true (Some A) true (operator_lshift name now1 t)). split.
  - apply operator_rshift_value_free. by rewrite Hopen.
  - rewrite operator_rshift_name_owner by reflexivity.
    change (_currentDuration (with_slot d true (Some A) true
              (operator_lshift name now1 t))) with d.
    rewrite Hpos, Hopen.
    rewrite <- (waitUntilDuration_with_slot name d now2 0 false (Some A) false
                  (start name now1 t)).
    reflexivity.
Qed.

Lemma stream_idiom_paces_witness :
  _timerMutex initial = false /\ 0 < 16667
  /\ exists t1,
       operator_rshift_value 1%nat 16667 (operator_lshift "frame" 1000 initial) = Some t1
       /\ returned (operator_rshift_name 1%nat "frame" 6000 t1) = false
       /\ slept (nanosleep_call (operator_rshift_name 1%nat "frame" 6000 t1)) = 11667000.
Proof.
  split; [reflexivity|]. split; [lia|].
  destruct (stream_idiom_paces 1%nat "frame" 16667 1000 6000 initial eq_refl ltac:(lia))
    as (t1 & Hpub & Hcons).
  exists t1. split; [exact Hpub|]. rewrite Hcons. split; reflexivity.
Defined.

(** ** More on the master clock *)

(** X11: a clock of 8 fields that was set is what the copying getter
    hands out, and it still is after a later attempt to set a clock of
    another length. *)
Theorem setMasterClock_getMasterClock_roundtrip (clock malformed out : Values) (t : Timer) :
  length clock = 8%nat ->
  length malformed <> 8%nat ->
  getMasterClock (setMasterClock clock t) out = (true, clock)
  /\ getMasterClock (setMasterClock malformed (setMasterClock clock t)) out = (true, clock).
Proof.
  intros Hl Hm. rewrite (setMasterClock_rejects _ _ Hm).
  rewrite (setMasterClock_accepts _ _ Hl).
  unfold getMasterClock. cbn [set_clock _clock]. rewrite Hl. split; reflexivity.
Qed.

Lemma setMasterClock_getMasterClock_roundtrip_witness :
  length in_range_clock = 8%nat
  /\ length [Integer 1; Integer 2; Integer 3] <> 8%nat
  /\ getMasterClock
       (setMasterClock [Integer 1; Integer 2; Integer 3]
          (setMasterClock in_range_clock (setMasterClock far_clock initial))) []
     = (true, in_range_clock).
Proof.
  split; [reflexivity|]. split; [cbn; lia|].
  exact (proj2 (setMasterClock_getMasterClock_roundtrip in_range_clock
                  [Integer 1; Integer 2; Integer 3] []
                  (setMasterClock far_clock initial) eq_refl ltac:(cbn; lia))).
Defined.

(** X12: in every registry the program can reach, the decoding getter
    returns: the stored clock is empty or has all the fields [clock[2]]
    to [clock[7]] that the getter indexes, so no index is past the end. *)
Theorem getMasterClock_as_never_reads_past_the_end (es : list Event) (t : Timer)
    (T : TimeUnit) (time : Z) (paused : bool) :
  run es initial = Some t ->
  exists decoded, getMasterClock_as T t time paused = Some decoded.
Proof.
  intros Hrun.
  assert (Hwf : clock_wf t).
  { eapply run_clock_wf; [exact Hrun|]. left. reflexivity. }
  destruct Hwf as [H0|H8].
  - eexists. unfold getMasterClock_as. rewrite H0. reflexivity.
  - eexists. by apply getMasterClock_as_stored.
Qed.

Lemma getMasterClock_as_never_reads_past_the_end_witness :
  run clock_history initial = Some (start "frame" 5 (setMasterClock in_range_clock initial))
  /\ exists decoded,
       getMasterClock_as milliseconds
         (start "frame" 5 (setMasterClock in_range_clock initial)) 0 true
       = Some decoded.
Proof.
  split; [reflexivity|].
  exact (getMasterClock_as_never_reads_past_the_end clock_history
           (start "frame" 5 (setMasterClock in_range_clock initial))
           milliseconds 0 true eq_refl).
Defined.

(** X13: the two leading fields of the clock are never decoded: stored
    clocks that differ only there give the same result in every unit. *)
Theorem leading_fields_are_not_decoded (a b a' b' : Value) (rest : Values)
    (T : TimeUnit) (t : Timer) (time : Z) (paused : bool) :
  length rest = 6%nat ->
  getMasterClock_as T (setMasterClock (a :: b :: rest) t) time paused
  = getMasterClock_as T (setMasterClock (a' :: b' :: rest) t) time paused.
Proof.
  intros Hl.
  rewrite !setMasterClock_accepts by (cbn [length]; by rewrite Hl).
  unfold getMasterClock_as. cbn [set_clock _clock length Nat.eqb]. reflexivity.
Qed.

Lemma leading_fields_are_not_decoded_witness :
  length [Integer 1; Integer 2; Integer 3; Integer 4; Integer 60; Integer 0] = 6%nat
  /\ getMasterClock_as microseconds
       (setMasterClock
          [Integer 7; Integer 9; Integer 1; Integer 2; Integer 3; Integer 4; Integer 60;
           Integer 0] initial) 0 true
     = Some (mkDecoded true 93784500000 false).
Proof.
  split; [reflexivity|].
  rewrite (leading_fields_are_not_decoded (Integer 7) (Integer 9) (Integer 0) (Integer 0)
             [Integer 1; Integer 2; Integer 3; Integer 4; Integer 60; Integer 0]
             microseconds initial 0 true eq_refl).
  reflexivity.
Defined.

(** X14: the frame count is bounded by 2^31 * 10_807_321 in absolute
    value for every clock, so the [long long] arithmetic that computes it
    yields the exact count: no step of it can wrap. *)
Theorem frame_count_never_wraps (clock : Values) :
  - (2 ^ 31 * 10807321) <= abs_frames clock <= 2 ^ 31 * 10807321
  /\ in_s64 (abs_frames clock)
  /\ frames_of (field clock 2) (field clock 3) (field clock 4) (field clock 5)
       (field clock 6)
     = abs_frames clock.
Proof.
  pose proof (field_range clock 2) as H2. pose proof (field_range clock 3) as H3.
  pose proof (field_range clock 4) as H4. pose proof (field_range clock 5) as H5.
  pose proof (field_range clock 6) as H6.
  rewrite (frames_of_exact _ _ _ _ _ H2 H3 H4 H5 H6).
  unfold abs_frames, in_s64, INT64_MIN, INT64_MAX.
  unfold in_int, INT_MIN, INT_MAX in *.
  change (2 ^ 31 * 10807321) with 23208545126187008.
  change (2 ^ 31) with 2147483648 in *. change (2 ^ 63) with 9223372036854775808.
  repeat split; lia.
Qed.

Lemma quot_seconds frame whole :
  0 <= frame < 120 -> 0 <= whole ->
  ((frame + 120 * whole) * 1000000 ÷ 120) ÷ 1000000 = whole.
Proof.
  intros Hf Hw.
  assert (Hin : (frame + 120 * whole) * 1000000 ÷ 120
                = (frame + 120 * whole) * 1000000 / 120)
    by (apply Z.quot_div_nonneg; lia).
  rewrite Hin.
  rewrite Z.quot_div_nonneg; [| apply Z.div_pos; lia | lia].
  rewrite Z.div_div by lia.
  symmetry. apply (Z.div_unique _ _ _ (frame * 1000000)); lia.
Qed.

(** X15: decoded in seconds, a clock whose frame field is a frame of the
    second (0 to 119) and whose time is not negative gives exactly
    second + 60*(minute + 60*(hour + 24*day)): the frame field is
    dropped, not rounded up. *)
Theorem getMasterClock_as_seconds (t : Timer) (time : Z) (paused : bool) :
  length (_clock t) = 8%nat ->
  0 <= field (_clock t) 6 < 120 ->
  0 <= abs_seconds (_clock t) ->
  abs_frames (_clock t) * 1000000 <= INT64_MAX ->
  getMasterClock_as seconds t time paused
  = Some (mkDecoded true (abs_seconds (_clock t)) (negb (field (_clock t) 7 =? 0))).
Proof.
  intros Hl Hf Hs Hmax. rewrite (getMasterClock_as_stored _ _ _ _ Hl).
  assert (Hfr : abs_frames (_clock t) = field (_clock t) 6 + 120 * abs_seconds (_clock t))
    by reflexivity.
  rewrite s64_id by (unfold in_s64, INT64_MIN; lia).
  cbn [duration_cast]. rewrite Hfr. by rewrite quot_seconds.
Qed.

Lemma getMasterClock_as_seconds_witness :
  length (_clock (setMasterClock in_range_clock initial)) = 8%nat
  /\ 0 <= field (_clock (setMasterClock in_range_clock initial)) 6 < 120
  /\ getMasterClock_as seconds (setMasterClock in_range_clock initial) 0 true
     = Some (mkDecoded true (4 + 60 * (3 + 60 * (2 + 24 * 1))) false).
Proof.
  split; [reflexivity|]. split; [by vm_compute|].
  exact (getMasterClock_as_seconds (setMasterClock in_range_clock initial) 0 true
           eq_refl ltac:(by vm_compute) ltac:(by vm_compute) ltac:(by vm_compute)).
Defined.

(** ** The debug flag *)

Lemma start_setDebug d name now t :
  start name now (setDebug d t) = setDebug d (start name now t).
Proof.
  unfold start, setDebug. cbn [set_isDebug _enabled _timeMap].
  destruct (negb (_enabled t)); [reflexivity|].
  destruct (_timeMap t !! name); reflexivity.
Qed.

Lemma stop_setDebug d name now t :
  stop name now (setDebug d t) = setDebug d (stop name now t).
Proof.
  unfold stop, setDebug. cbn [set_isDebug _enabled _timeMap _durationMap].
  destruct (negb (_enabled t)); [reflexivity|].
  destruct (_timeMap t !! name); [|reflexivity].
  destruct (_durationMap t !! name); reflexivity.
Qed.

Lemma waitUntilDuration_setDebug d name duration now t :
  waitUntilDuration name duration now (setDebug d t)
  = mkPaced (setDebug d (timer_after (waitUntilDuration name duration now t)))
      (returned (waitUntilDuration name duration now t))
      (nanosleep_call (waitUntilDuration name duration now t)).
Proof.
  unfold waitUntilDuration, setDebug. cbn [set_isDebug _enabled _timeMap _durationMap].
  destruct (negb (_enabled t)); [reflexivity|].
  destruct (_timeMap t !! name); [|reflexivity].
  destruct (_durationMap t !! name); reflexivity.
Qed.

Lemma operator_rshift_name_setDebug d self name now t :
  operator_rshift_name self name now (setDebug d t)
  = mkPaced (setDebug d (timer_after (operator_rshift_name self name now t)))
      (returned (operator_rshift_name self name now t))
      (nanosleep_call (operator_rshift_name self name now t)).
Proof.
  unfold operator_rshift_name.
  change (_isDurationSet (setDebug d t)) with (_isDurationSet t).
  change (_durationThreadId (setDebug d t)) with (_durationThreadId t).
  change (_currentDuration (setDebug d t)) with (_currentDuration t).
  destruct (_isDurationSet t && bool_decide _); cbn [fst snd].
  - change (set_timerMutex false (set_currentDuration 0 (set_isDurationSet false
              (setDebug d t))))
      with (setDebug d (set_timerMutex false (set_currentDuration 0
              (set_isDurationSet false t)))).
    destruct (0 <? _currentDuration t).
    + apply waitUntilDuration_setDebug.
    + by rewrite stop_setDebug.
  - change (0 <? 0) with false. cbv iota. by rewrite stop_setDebug.
Qed.

(** X16: the debug flag is passive.  No call but [setDebug] reads or
    writes it: with the flag set either way a call returns in the same
    cases and leaves the same registry (flag apart), and the pacing
    calls return the same result and make the same [nanosleep] request. *)
Theorem debug_flag_is_passive (e : Event) (d : bool) (t : Timer) (name : string)
    (duration now : Z) :
  (forall d', call e <> Call_setDebug d') ->
  exec e (setDebug d t) = setDebug d <$> exec e t
  /\ isDebug (setDebug d t) = d
  /\ returned (waitUntilDuration name duration now (setDebug d t))
     = returned (waitUntilDuration name duration now t)
  /\ nanosleep_call (waitUntilDuration name duration now (setDebug d t))
     = nanosleep_call (waitUntilDuration name duration now t)
  /\ returned (operator_rshift_name (self e) name now (setDebug d t))
     = returned (operator_rshift_name (self e) name now t)
  /\ nanosleep_call (operator_rshift_name (self e) name now (setDebug d t))
     = nanosleep_call (operator_rshift_name (self e) name now t)
  /\ getDuration name (setDebug d t) = getDuration name t.
Proof.
  intros Hcall. split.
  - unfold exec. destruct (call e) as
      [d'|n|n|n dur|n|n value|n|n|dur|n|enabled
      |clock|clock|T time paused|n| |]; cbn [fmap option_fmap option_map];
      try reflexivity.
    + by destruct (Hcall d').
    + by rewrite start_setDebug.
    + by rewrite stop_setDebug.
    + by rewrite waitUntilDuration_setDebug.
    + by rewrite !setDuration_eq.
    + unfold sinceLastSeen. change (_timeMap (setDebug d t)) with (_timeMap t).
      destruct (_timeMap t !! n); cbn [fst];
        by rewrite ?stop_setDebug, ?start_setDebug.
    + unfold operator_lshift. by rewrite start_setDebug.
    + unfold operator_rshift_value. change (_timerMutex (setDebug d t)) with (_timerMutex t).
      by destruct (_timerMutex t).
    + by rewrite operator_rshift_name_setDebug.
    + unfold setMasterClock. by destruct (_ =? _)%nat.
    + change (getMasterClock_as T (setDebug d t) time paused)
        with (getMasterClock_as T t time paused).
      by destruct (getMasterClock_as T t time paused).
  - rewrite waitUntilDuration_setDebug, operator_rshift_name_setDebug. repeat split.
Qed.

Lemma debug_flag_is_passive_witness :
  (forall d', Call_stop "frame" <> Call_setDebug d')
  /\ exec (mkEvent 1%nat 16667 16667 (Call_stop "frame")) (setDebug true frame_started)
     = Some (setDebug true (stop "frame" 16667 frame_started))
  /\ getDuration "frame" (setDebug true (stop "frame" 16667 frame_started)) = 16667.
Proof.
  split; [intros d'; discriminate|]. split; [|reflexivity].
  exact (proj1 (debug_flag_is_passive (mkEvent 1%nat 16667 16667 (Call_stop "frame"))
                  true frame_started "frame" 0 0 ltac:(intros d'; discriminate))).
Defined.

(** ** Durations set from outside *)

(** X17: the two maps are independent.  [setDuration] gives a name a
    duration but no start timestamp: on a name that was never started,
    [waitUntilDuration] still returns false without sleeping, [stop]
    still does nothing, and the duration that was set stays. *)
Theorem setDuration_does_not_arm (name : string) (value target now : Z) (t : Timer) :
  _timeMap t !! name = None ->
  _timeMap (setDuration name value t) !! name = None
  /\ waitUntilDuration name target now (setDuration name value t)
     = mkPaced (setDuration name value t) false None
  /\ stop name now (setDuration name value t) = setDuration name value t
  /\ getDuration name (stop name now (setDuration name value t)) = value.
Proof.
  intros Hn.
  assert (Hn' : _timeMap (setDuration name value t) !! name = None)
    by (by rewrite setDuration_eq).
  split; [exact Hn'|].
  rewrite (waitUntilDuration_unarmed _ _ _ _ Hn'), (stop_unarmed _ _ _ Hn').
  split; [reflexivity|]. split; [reflexivity|]. apply getDuration_setDuration.
Qed.

Lemma setDuration_does_not_arm_witness :
  _timeMap frame_started !! "peer" = None
  /\ waitUntilDuration "peer" 16667 100 (setDuration "peer" 4200 frame_started)
     = mkPaced (setDuration "peer" 4200 frame_started) false None
  /\ getDuration "peer" (stop "peer" 100 (setDuration "peer" 4200 frame_started)) = 4200.
Proof.
  split; [reflexivity|].
  destruct (setDuration_does_not_arm "peer" 4200 16667 100 frame_started eq_refl)
    as (_ & Hwait & _ & Hget).
  split; [exact Hwait | exact Hget].
Defined.

(** ** [RgbValue]: indices and constructors *)

Section RgbValueFacts.

Context {float : Type} (zero : float) (as_float : Value -> float).

Lemma small_index (i : N) : (i <= 2)%N -> i = 0%N \/ i = 1%N \/ i = 2%N.
Proof. lia. Qed.

(** X18: for an index 0, 1 or 2, [set(i, v)] writes the member that
    [operator[](i)] refers to: reading it back gives [v], and the two
    other members are as before. *)
Theorem set_then_operator_index (i j : N) (v : float) (c : Rgb.RgbValue float) :
  (i <= 2)%N ->
  (j <= 2)%N ->
  j <> i ->
  Rgb.set float (Z.of_N i) v c = Rgb.write float (Rgb.operator_index i) v c
  /\ Rgb.read float (Rgb.operator_index i) (Rgb.set float (Z.of_N i) v c) = v
  /\ Rgb.read float (Rgb.operator_index j) (Rgb.set float (Z.of_N i) v c)
     = Rgb.read float (Rgb.operator_index j) c.
Proof.
  intros Hi Hj Hne.
  destruct (small_index i Hi) as [-> | [-> | ->]];
    destruct (small_index j Hj) as [-> | [-> | ->]];
    try contradiction; repeat split.
Qed.

(** X19: out of range the two differ.  [set(i, v)] with [i] below 0 or
    above 2 changes nothing, while [operator[](c)] with [c] above 2
    refers to the red member, so that a write through it replaces red. *)
Theorem out_of_range_index (i : Z) (k : N) (v : float) (c : Rgb.RgbValue float) :
  i < 0 \/ 2 < i ->
  (2 < k)%N ->
  Rgb.set float i v c = c
  /\ Rgb.operator_index k = Rgb.member_r
  /\ Rgb.read float (Rgb.operator_index k) c = Rgb.r float c
  /\ Rgb.write float (Rgb.operator_index k) v c
     = Rgb.mkRgb float v (Rgb.g float c) (Rgb.b float c).
Proof.
  intros Hi Hk.
  assert (Hm : Rgb.operator_index k = Rgb.member_r).
  { unfold Rgb.operator_index.
    assert (E : (2 <? k)%N = true) by (apply N.ltb_lt; exact Hk).
    rewrite E, orb_true_r. reflexivity. }
  rewrite Hm. split; [|repeat split].
  unfold Rgb.set.
  assert (E0 : (i =? 0) = false) by (apply Z.eqb_neq; lia).
  assert (E1 : (i =? 1) = false) by (apply Z.eqb_neq; lia).
  assert (E2 : (i =? 2) = false) by (apply Z.eqb_neq; lia).
  rewrite E0, E1, E2. reflexivity.
Qed.

(** X20: both sequence constructors take a sequence of exactly three
    elements, in the order red, green, blue; for any other length,
    empty included, the colour is the default (0, 0, 0) and the
    elements are not looked at. *)
Theorem RgbValue_from_sequences (vs : Values) (fs : list float) (x y z : Value)
    (p q s : float) :
  length vs <> 3%nat ->
  length fs <> 3%nat ->
  Rgb.RgbValue_of_Values float zero as_float vs = Rgb.mkRgb float zero zero zero
  /\ Rgb.RgbValue_of_vector float zero fs = Rgb.mkRgb float zero zero zero
  /\ Rgb.RgbValue_of_Values float zero as_float [x; y; z]
     = Rgb.mkRgb float (as_float x) (as_float y) (as_float z)
  /\ Rgb.RgbValue_of_vector float zero [p; q; s] = Rgb.RgbValue_of_floats float p q s.
Proof.
  intros Hv Hf. unfold Rgb.RgbValue_of_Values, Rgb.RgbValue_of_vector.
  destruct (Nat.eqb_spec (length vs) 3) as [E|_]; [contradiction|].
  destruct (Nat.eqb_spec (length fs) 3) as [E|_]; [contradiction|].
  repeat split.
Qed.

End RgbValueFacts.

Lemma set_then_operator_index_witness :
  (1 <= 2)%N /\ (2 <= 2)%N /\ 2%N <> 1%N
  /\ Rgb.read Z (Rgb.operator_index 1) (Rgb.set Z 1 7 (Rgb.mkRgb Z 10 20 30)) = 7
  /\ Rgb.read Z (Rgb.operator_index 2) (Rgb.set Z 1 7 (Rgb.mkRgb Z 10 20 30)) = 30.
Proof.
  split; [lia|]. split; [lia|]. split; [lia|].
  destruct (set_then_operator_index 1%N 2%N 7 (Rgb.mkRgb Z 10 20 30)
              ltac:(lia) ltac:(lia) ltac:(lia)) as (_ & Hread & Hother).
  split; [exact Hread | exact Hother].
Defined.

Lemma out_of_range_index_witness :
  (3 < 0 \/ 2 < 3) /\ (2 < 3)%N
  /\ Rgb.set Z 3 7 (Rgb.mkRgb Z 10 20 30) = Rgb.mkRgb Z 10 20 30
  /\ Rgb.write Z (Rgb.operator_index 3) 7 (Rgb.mkRgb Z 10 20 30) = Rgb.mkRgb Z 7 20 30.
Proof.
  split; [lia|]. split; [lia|].
  destruct (out_of_range_index 3 3%N 7 (Rgb.mkRgb Z 10 20 30) ltac:(lia) ltac:(lia))
    as (Hset & _ & _ & Hwrite).
  split; [exact Hset | exact Hwrite].
Defined.

Lemma RgbValue_from_sequences_witness :
  length (@nil Value) <> 3%nat /\ length [1; 2] <> 3%nat
  /\ Rgb.RgbValue_of_Values Z 0 as_int [] = Rgb.mkRgb Z 0 0 0
  /\ Rgb.RgbValue_of_vector Z 0 [1; 2] = Rgb.mkRgb Z 0 0 0
  /\ Rgb.RgbValue_of_Values Z 0 as_int [Integer 10; Integer 20; Integer 30]
     = Rgb.mkRgb Z 10 20 30.
Proof.
  split; [cbn; lia|]. split; [cbn; lia|].
  destruct (RgbValue_from_sequences 0 as_int [] [1; 2] (Integer 10) (Integer 20)
              (Integer 30) 1 2 3 ltac:(cbn; lia) ltac:(cbn; lia))
    as (Hv & Hf & Hthree & _).
  split; [exact Hv|]. split; [exact Hf | exact Hthree].
Defined.
